(** * LLM recommendation service ([llm/main.py])

    A shallow embedding of the meal-recommendation service: the Open WebUI
    completion wrapper ([OpenWebUILLM._call]), the prompt template and the
    chain built from it, the gRPC handler
    ([MealRecommendationService.RecommendMeal]) and the HTTP handler
    ([recommend]), followed by the properties the specification states
    about them.

    Python values are modelled as follows.
    - [str] is a sequence of Unicode code points ([list N]); literals of
      the source are written [py "..."].
    - Exceptions are values of type [exn]; a computation that may raise and
      that performs observable actions has type [M A]: its outcome
      ([Ok] or [Raise]) together with the list of actions performed, in
      program order.
    - What the program receives from its collaborators (the HTTP exchange
      performed by [requests.post], the texts of interpreter and library
      generated errors) is a parameter of type [Runtime]. *)

From Stdlib Require Import List String Ascii NArith ZArith Bool Lia.
Import ListNotations.

Set Implicit Arguments.
Unset Strict Implicit.

(* ===================================================================== *)
(** ** Python strings *)
(* ===================================================================== *)

Definition codepoint := N.
Definition str := list codepoint.

(** A literal of the source as a [str]. *)
Definition py (s : string) : str :=
  map N_of_ascii (list_ascii_of_string s).

Definition codepoint_eqb : codepoint -> codepoint -> bool := N.eqb.

Fixpoint str_eqb (s t : str) : bool :=
  match s, t with
  | [], [] => true
  | c :: s', d :: t' => codepoint_eqb c d && str_eqb s' t'
  | _, _ => false
  end.

(** [not x] for a list or a string: true exactly on the empty one. *)
Definition is_empty {A : Type} (l : list A) : bool :=
  match l with [] => true | _ :: _ => false end.

(** Code points [str.strip()] removes: those for which [str.isspace] holds. *)
Definition is_space (c : codepoint) : bool :=
  ((9 <=? c) && (c <=? 13) || (28 <=? c) && (c <=? 32)
   || (c =? 133) || (c =? 160) || (c =? 5760)
   || (8192 <=? c) && (c <=? 8202)
   || (c =? 8232) || (c =? 8233) || (c =? 8239) || (c =? 8287)
   || (c =? 12288))%N.

Fixpoint lstrip (s : str) : str :=
  match s with
  | [] => []
  | c :: s' => if is_space c then lstrip s' else s
  end.

Fixpoint rstrip (s : str) : str :=
  match s with
  | [] => []
  | c :: s' =>
      match rstrip s' with
      | [] => if is_space c then [] else [c]
      | t => c :: t
      end
  end.

(** [s.strip()] *)
Definition strip (s : str) : str := rstrip (lstrip s).

(** [sep.join(parts)] *)
Fixpoint join (sep : str) (parts : list str) : str :=
  match parts with
  | [] => []
  | [p] => p
  | p :: rest => p ++ sep ++ join sep rest
  end.

Fixpoint starts_with (needle hay : str) : bool :=
  match needle, hay with
  | [], _ => true
  | c :: n', d :: h' => codepoint_eqb c d && starts_with n' h'
  | _ :: _, [] => false
  end.

(** [needle in hay] for two strings. *)
Fixpoint contains (needle hay : str) : bool :=
  starts_with needle hay
  || match hay with
     | [] => false
     | _ :: h' => contains needle h'
     end.

(** [needle] occurs in [hay] as a contiguous run of code points. *)
Definition occurs_in (needle hay : str) : Prop :=
  exists pre post, hay = pre ++ needle ++ post.

(** The code points U+D800 to U+DFFF. A [str] may hold them on their own
    (decoding the JSON text "\ud83c" gives one), but they have no UTF-8
    encoding. *)
Definition is_surrogate (c : codepoint) : bool :=
  ((55296 <=? c) && (c <=? 57343))%N.

(** [s.encode("utf-8")] succeeds. *)
Definition encodable (s : str) : bool :=
  forallb (fun c => negb (is_surrogate c)) s.

(* ===================================================================== *)
(** ** Exceptions *)
(* ===================================================================== *)

(** The exception classes the program distinguishes. A class that derives
    from one of the named ones is identified with it, since the program
    observes an exception only through [except] clauses and [str(e)].
    All of them derive from [Exception]. *)
Inductive exn_class : Type :=
| Exception_                      (* Exception itself *)
| ValueError
| KeyError
| IndexError
| TypeError
| AttributeError
| RequestException                (* requests.RequestException: timeouts,
                                     connection and HTTP status errors *)
| RequestsJSONDecodeError         (* both a RequestException and a ValueError *)
| OtherException (name : str).    (* any other subclass of Exception *)

Inductive exn : Type :=
| PyExc (c : exn_class) (msg : str)               (* str(e) is msg *)
| HTTPException (status_code : Z) (detail : str). (* fastapi.HTTPException *)

(** [isinstance(e, requests.RequestException)] *)
Definition is_RequestException (e : exn) : bool :=
  match e with
  | PyExc RequestException _ | PyExc RequestsJSONDecodeError _ => true
  | _ => false
  end.

(** [isinstance(e, (KeyError, IndexError, ValueError))] *)
Definition is_KeyError_IndexError_ValueError (e : exn) : bool :=
  match e with
  | PyExc KeyError _ | PyExc IndexError _ | PyExc ValueError _
  | PyExc RequestsJSONDecodeError _ => true
  | _ => false
  end.

(** [isinstance(e, HTTPException)] *)
Definition is_HTTPException (e : exn) : bool :=
  match e with
  | HTTPException _ _ => true
  | PyExc _ _ => false
  end.

(* ===================================================================== *)
(** ** JSON values, as [response.json()] returns them *)
(* ===================================================================== *)

#[warnings="-register-all"]
Inductive JSON : Type :=
| JNull
| JBool (b : bool)
| JInt (z : Z)
| JFloat (literal : str)
| JStr (s : str)
| JList (items : list JSON)
| JDict (entries : list (str * JSON)).   (* keys are looked up from the front *)

Definition type_name (v : JSON) : str :=
  match v with
  | JNull => py "NoneType"
  | JBool _ => py "bool"
  | JInt _ => py "int"
  | JFloat _ => py "float"
  | JStr _ => py "str"
  | JList _ => py "list"
  | JDict _ => py "dict"
  end.

Fixpoint lookup {V : Type} (key : str) (entries : list (str * V)) : option V :=
  match entries with
  | [] => None
  | (k, v) :: rest => if str_eqb k key then Some v else lookup key rest
  end.

(* ===================================================================== *)
(** ** Observable actions and the collaborators' answers *)
(* ===================================================================== *)

(** The arguments of [requests.post(url, headers=..., json=..., timeout=...)]. *)
Record HttpRequest : Type := {
  url : str;
  headers : list (str * str);
  json : JSON;
  timeout : Z
}.

Inductive event : Type :=
| LlmCall (prompt : str)        (* the chain hands a prompt to the LLM *)
| HttpPost (r : HttpRequest)    (* one outbound request *)
| Stdout (line : str).          (* print(line) *)

Inductive outcome (A : Type) : Type :=
| Ok (a : A)
| Raise (e : exn).
Arguments Ok {A} a.
Arguments Raise {A} e.

(** The response object [requests.post] returns. *)
Record Response : Type := {
  raise_for_status : option exn;    (* [None]: the status is not an error *)
  response_json : outcome JSON      (* what [response.json()] does *)
}.

(** The operations whose failure text is produced by the interpreter. *)
Inductive fault : Type :=
| NotIterable (ty : str)             (* x in v *)
| NoLen (ty : str)                   (* len(v) *)
| NotSubscriptable (ty : str)        (* v[k] *)
| BadIndexType (ty key_ty : str)     (* a list or str indexed by a str *)
| IndexOutOfRange (ty : str)
| NoAttribute (ty attr : str).

Record Runtime : Type := {
  requests_post : HttpRequest -> outcome Response;
  interp_text : fault -> str;
  str_HTTPException : Z -> str -> str;   (* HTTPException.__str__ *)
  (* the text of the error raised for a string that cannot be encoded as
     UTF-8; it names the offending characters by their escapes, so that it
     can itself be encoded *)
  encode_error_text : str -> str;
  encode_error_text_encodable :
    forall s, encodable (encode_error_text s) = true
}.

(** [str(e)] *)
Definition str_of (rt : Runtime) (e : exn) : str :=
  match e with
  | PyExc _ msg => msg
  | HTTPException status_code detail => str_HTTPException rt status_code detail
  end.

(* ===================================================================== *)
(** ** Computations: an outcome and the actions performed *)
(* ===================================================================== *)

Definition M (A : Type) : Type := (outcome A * list event)%type.

Definition ret {A : Type} (a : A) : M A := (Ok a, []).
Definition raise {A : Type} (e : exn) : M A := (Raise e, []).
Definition emit (ev : event) : M unit := (Ok tt, [ev]).

Definition bind {A B : Type} (m : M A) (k : A -> M B) : M B :=
  match m with
  | (Ok a, tr) => let (r, tr') := k a in (r, tr ++ tr')
  | (Raise e, tr) => (Raise e, tr)
  end.

(** [try: body  except Exception as e: handler e] *)
Definition try_except {A : Type} (body : M A) (handler : exn -> M A) : M A :=
  match body with
  | (Ok a, tr) => (Ok a, tr)
  | (Raise e, tr) => let (r, tr') := handler e in (r, tr ++ tr')
  end.

Declare Scope py_scope.
Delimit Scope py_scope with py.
Notation "x <- m ;; k" := (bind m (fun x => k))
  (at level 61, m at next level, right associativity) : py_scope.
Notation "m ;; k" := (bind m (fun _ => k))
  (at level 61, right associativity) : py_scope.
Open Scope py_scope.

(** [a and b], evaluating [b] only when [a] is true. *)
Definition py_and (a b : M bool) : M bool :=
  x <- a ;; if x then b else ret false.

Definition outcome_of {A : Type} (m : M A) : outcome A := fst m.
Definition trace_of {A : Type} (m : M A) : list event := snd m.

(** The number of prompts handed to the LLM, and of outbound requests. *)
Definition is_provider_call (ev : event) : bool :=
  match ev with
  | LlmCall _ | HttpPost _ => true
  | Stdout _ => false
  end.

Definition provider_calls (tr : list event) : nat :=
  List.length (filter is_provider_call tr).

(** A computation that performs no action. *)
Definition silent {A : Type} (m : M A) : Prop := trace_of m = [].

Definition lift {A : Type} (o : outcome A) : M A := (o, []).

(** [repr(key)] of a string without quotes, backslashes or control
    characters, which is the text of the [KeyError] it raises. *)
Definition repr_str (key : str) : str := py "'" ++ key ++ py "'".

(* ===================================================================== *)
(** ** [langchain]: the LLM interface and prompt templates *)
(* ===================================================================== *)

(** [langchain.llms.base.LLM]: what a subclass has to provide. *)
Class LLM (T : Type) : Type := {
  _llm_type : T -> str;
  _call : Runtime -> T -> str -> M str
}.

Inductive segment : Type :=
| Text (s : str)
| Field (name : str).

Definition lbrace : codepoint := 123%N.
Definition rbrace : codepoint := 125%N.

Definition cons_ok {A : Type} (a : A) (o : outcome (list A)) : outcome (list A) :=
  match o with
  | Ok l => Ok (a :: l)
  | Raise e => Raise e
  end.

(** The fields of a format string: [{name}] is a replacement field, [{{]
    and [}}] stand for a brace. [lit] is the text read since the last field,
    reversed; [field] is the name being read, reversed. Conversions and
    format specifications inside a field are not modelled. *)
Fixpoint parse_format (s lit : str) (field : option str)
  : outcome (list segment) :=
  match s with
  | [] =>
      match field with
      | None => Ok [Text (rev lit)]
      | Some _ =>
          Raise (PyExc ValueError (py "expected '}' before end of string"))
      end
  | c :: s' =>
      match field with
      | Some name =>
          if codepoint_eqb c rbrace
          then cons_ok (Field (rev name)) (parse_format s' [] None)
          else parse_format s' lit (Some (c :: name))
      | None =>
          if codepoint_eqb c lbrace then
            match s' with
            | d :: s'' =>
                if codepoint_eqb d lbrace
                then parse_format s'' (c :: lit) None
                else cons_ok (Text (rev lit)) (parse_format s' [] (Some []))
            | [] =>
                Raise (PyExc ValueError
                         (py "Single '{' encountered in format string"))
            end
          else if codepoint_eqb c rbrace then
            match s' with
            | d :: s'' =>
                if codepoint_eqb d rbrace
                then parse_format s'' (c :: lit) None
                else Raise (PyExc ValueError
                              (py "Single '}' encountered in format string"))
            | [] =>
                Raise (PyExc ValueError
                         (py "Single '}' encountered in format string"))
            end
          else parse_format s' (c :: lit) None
      end
  end.

Fixpoint substitute (segs : list segment) (kwargs : list (str * str))
  : outcome str :=
  match segs with
  | [] => Ok []
  | Text t :: rest =>
      match substitute rest kwargs with
      | Ok r => Ok (t ++ r)
      | Raise e => Raise e
      end
  | Field name :: rest =>
      match lookup name kwargs with
      | None => Raise (PyExc KeyError (repr_str name))
      | Some v =>
          match substitute rest kwargs with
          | Ok r => Ok (v ++ r)
          | Raise e => Raise e
          end
      end
  end.

Record PromptTemplate : Type := {
  input_variables : list str;
  template : str
}.

(** [prompt.format] applied to the keyword arguments [kwargs]. *)
Definition format (p : PromptTemplate) (kwargs : list (str * str))
  : outcome str :=
  match parse_format (template p) [] None with
  | Ok segs => substitute segs kwargs
  | Raise e => Raise e
  end.

(** [(prompt | llm).invoke(kwargs)]: format the prompt, hand it to the LLM. *)
Definition pipe {T : Type} `{LLM T} (p : PromptTemplate) (l : T)
  (rt : Runtime) (kwargs : list (str * str)) : M str :=
  prompt <- lift (format p kwargs) ;;
  emit (LlmCall prompt) ;;
  _call rt l prompt.

(* ===================================================================== *)
(** ** Environment configuration *)
(* ===================================================================== *)

Definition environ := list (str * str).

(** [os.getenv(name)] *)
Definition getenv (env : environ) (name : str) : option str := lookup name env.

Definition CHAIR_API_KEY (env : environ) : option str :=
  getenv env (py "CHAIR_API_KEY").

Definition API_URL : str := py "https://gpu.aet.cit.tum.de/api/chat/completions".

(* ===================================================================== *)
(** ** The Open WebUI wrapper *)
(* ===================================================================== *)

Record OpenWebUILLM : Type := {
  api_url : str;
  api_key : option str;      (* [None] when the variable is not set *)
  model_name : str
}.

(** [OpenWebUILLM()]: every field takes its default. *)
Definition new_OpenWebUILLM (env : environ) : OpenWebUILLM :=
  {| api_url := API_URL;
     api_key := CHAIR_API_KEY env;
     model_name := py "llama3:latest" |}.

(** Truth value of an optional string: [None] and the empty string are false. *)
Definition truthy (o : option str) : bool :=
  match o with
  | None => false
  | Some s => negb (is_empty s)
  end.

(** An optional string inside an f-string. *)
Definition fmt (o : option str) : str :=
  match o with
  | None => py "None"
  | Some s => s
  end.

Section Operations.

Variable rt : Runtime.

Definition type_error {A : Type} (f : fault) : M A :=
  raise (PyExc TypeError (interp_text rt f)).

(** [needle in v] *)
Definition py_in (needle : str) (v : JSON) : M bool :=
  match v with
  | JDict entries =>
      ret (match lookup needle entries with Some _ => true | None => false end)
  | JList items =>
      ret (existsb (fun x => match x with
                             | JStr s => str_eqb s needle
                             | _ => false
                             end) items)
  | JStr s => ret (contains needle s)
  | _ => type_error (NotIterable (type_name v))
  end.

(** [v[key]] for a string [key] *)
Definition getitem (v : JSON) (key : str) : M JSON :=
  match v with
  | JDict entries =>
      match lookup key entries with
      | Some x => ret x
      | None => raise (PyExc KeyError (repr_str key))
      end
  | JList _ | JStr _ => type_error (BadIndexType (type_name v) (py "str"))
  | _ => type_error (NotSubscriptable (type_name v))
  end.

(** [v[0]] *)
Definition getitem_0 (v : JSON) : M JSON :=
  match v with
  | JList (x :: _) => ret x
  | JStr (c :: _) => ret (JStr [c])
  | JList [] | JStr [] =>
      raise (PyExc IndexError (interp_text rt (IndexOutOfRange (type_name v))))
  | JDict _ => raise (PyExc KeyError (py "0"))     (* every key is a string *)
  | _ => type_error (NotSubscriptable (type_name v))
  end.

(** [len(v)] *)
Definition len (v : JSON) : M Z :=
  match v with
  | JDict entries => ret (Z.of_nat (List.length entries))
  | JList items => ret (Z.of_nat (List.length items))
  | JStr s => ret (Z.of_nat (List.length s))
  | _ => type_error (NoLen (type_name v))
  end.

(** [v.strip()] *)
Definition strip_method (v : JSON) : M str :=
  match v with
  | JStr s => ret (strip s)
  | _ => raise (PyExc AttributeError
                  (interp_text rt (NoAttribute (type_name v) (py "strip"))))
  end.

(** [requests.post(...)]: one outbound request, answered by the runtime. *)
Definition post (r : HttpRequest) : M Response :=
  emit (HttpPost r) ;; lift (requests_post rt r).

(** [response.raise_for_status()] *)
Definition check_status (response : Response) : M unit :=
  match raise_for_status response with
  | None => ret tt
  | Some e => raise e
  end.

(** [OpenWebUILLM._call] *)
Definition OpenWebUILLM_call (self : OpenWebUILLM) (prompt : str) : M str :=
  if negb (truthy (api_key self)) then
    raise (PyExc ValueError (py "CHAIR_API_KEY environment variable is required"))
  else
    let headers :=
      [ (py "Authorization", py "Bearer " ++ fmt (api_key self));
        (py "Content-Type", py "application/json") ] in
    let messages :=
      JList [ JDict [ (py "role", JStr (py "user"));
                      (py "content", JStr prompt) ] ] in
    let payload :=
      JDict [ (py "model", JStr (model_name self));
              (py "messages", messages) ] in
    try_except
      (response <- post {| url := api_url self; headers := headers;
                           json := payload; timeout := 30 |} ;;
       check_status response ;;
       result <- lift (response_json response) ;;
       nonempty <- py_and (py_in (py "choices") result)
                          (choices <- getitem result (py "choices") ;;
                           n <- len choices ;;
                           ret (0 <? n)%Z) ;;
       if (nonempty : bool) then
         choices <- getitem result (py "choices") ;;
         choice <- getitem_0 choices ;;
         message <- getitem choice (py "message") ;;
         content <- getitem message (py "content") ;;
         strip_method content
       else
         raise (PyExc ValueError (py "Unexpected response format from API")))
      (fun e =>
         if is_RequestException e then
           raise (PyExc Exception_ (py "API request failed: " ++ str_of rt e))
         else if is_KeyError_IndexError_ValueError e then
           raise (PyExc Exception_
                    (py "Failed to parse API response: " ++ str_of rt e))
         else raise e).

End Operations.

#[global] Instance OpenWebUILLM_LLM : LLM OpenWebUILLM := {
  _llm_type := fun _ => py "open_webui";
  _call := OpenWebUILLM_call
}.

(** [llm = OpenWebUILLM()] *)
Definition llm (env : environ) : OpenWebUILLM := new_OpenWebUILLM env.

Definition recommendation_prompt : PromptTemplate :=
  {| input_variables := [py "favorite_menu"; py "todays_menu"];
     template := py "You are a helpful food recommendation assistant. Your task is to suggest exactly one dish from today's menu based on the user's preferences.

User's favorite meals: {favorite_menu}

Today's available meals: {todays_menu}

Based on the user's favorite meals, please recommend exactly ONE meal from today's available options. 
Consider:
- Similarity to the user's favorite meals
- Flavor profiles that match their preferences
- Availability in today's menu

IMPORTANT: You must respond with ONLY the exact name of one dish from today's menu. Do not include any explanations, additional text, punctuation, or formatting. Just return the dish name exactly as it appears in today's menu.

Example format: Spaghetti Carbonara

Recommendation:" |}.

(** [recommendation_chain = recommendation_prompt | llm], for the LLM [l]. *)
Definition recommendation_chain {T : Type} `{LLM T} (l : T)
  : Runtime -> list (str * str) -> M str :=
  pipe recommendation_prompt l.

(* ===================================================================== *)
(** ** The gRPC service *)
(* ===================================================================== *)

(** Modelled from the spec: an entry of today's menu, [{name: string}]
    (the generated protobuf messages, [meal_recommendation_pb2], are not
    part of the sources). *)
Record Meal : Type := { name : str }.

(** Modelled from the spec: the request message of the remote procedure,
    [{user_id: string, favorite_meals: [string], today_menu: [{name: string}]}]
    (its protobuf declaration is not part of the sources). *)
Record MealRecommendationRequest : Type := {
  user_id : str;
  favorite_meals : list str;
  today_menu : list Meal
}.

(** Modelled from the spec: the response message of the remote procedure,
    [{recommended_meal_name: string, reasoning: string}] (its protobuf
    declaration is not part of the sources). *)
Record MealRecommendationResponse : Type := {
  recommended_meal_name : str;
  reasoning : str
}.

Section Handlers.

Variable rt : Runtime.

(** Modelled from the spec: building the response message,
    [meal_recommendation_pb2.MealRecommendationResponse(recommended_meal_name=...,
    reasoning=...)] (the generated module is not part of the sources). Both
    fields are protobuf strings, and a protobuf string field takes only
    text that can be encoded as UTF-8: for any other text the constructor
    raises a [UnicodeEncodeError], which is a [ValueError]. The fields are
    set in the order of the keyword arguments. *)
Definition new_MealRecommendationResponse (recommended_meal_name reasoning : str)
  : M MealRecommendationResponse :=
  if negb (encodable recommended_meal_name) then
    raise (PyExc ValueError (encode_error_text rt recommended_meal_name))
  else if negb (encodable reasoning) then
    raise (PyExc ValueError (encode_error_text rt reasoning))
  else
    ret {| recommended_meal_name := recommended_meal_name;
           reasoning := reasoning |}.

(** [MealRecommendationService.RecommendMeal], with the module-level chain
    built over the LLM [l]. [print] is taken to write its line whatever the
    line holds. *)
Definition RecommendMeal {T : Type} `{LLM T} (l : T)
  (request : MealRecommendationRequest) : M MealRecommendationResponse :=
  try_except
    (let user_id := user_id request in
     let favorite_meals := favorite_meals request in
     let today_menu := map name (today_menu request) in
     if is_empty favorite_meals then
       new_MealRecommendationResponse
         (py "No recommendation available")
         (py "No favorite meals provided")
     else if is_empty today_menu then
       new_MealRecommendationResponse
         (py "No recommendation available")
         (py "No meals available today")
     else
       let favorite_meals_str := join (py ", ") favorite_meals in
       let todays_meals_str := join (py ", ") today_menu in
       recommendation <-
         recommendation_chain l rt
           [ (py "favorite_menu", favorite_meals_str);
             (py "todays_menu", todays_meals_str) ] ;;
       new_MealRecommendationResponse
         (strip recommendation)
         (py "Recommended based on your favorites: " ++ favorite_meals_str))
    (fun e =>
       emit (Stdout (py "Error in gRPC recommendation: " ++ str_of rt e)) ;;
       new_MealRecommendationResponse
         (py "Error generating recommendation")
         (py "An error occurred: " ++ str_of rt e)).

(* ===================================================================== *)
(** ** The HTTP endpoint *)
(* ===================================================================== *)

Record RecommendRequest : Type := {
  favorite_menu : list str;
  todays_menu : list str
}.

Record RecommendResponse : Type := {
  recommendation : str
}.

(** [POST /recommend] *)
Definition recommend (req : RecommendRequest) : M RecommendResponse :=
  try_except
    (if is_empty (favorite_menu req) then
       raise (HTTPException 400 (py "favorite_menu cannot be empty"))
     else if is_empty (todays_menu req) then
       raise (HTTPException 400 (py "todays_menu cannot be empty"))
     else
       let favorite_meals_str := join (py ", ") (favorite_menu req) in
       let todays_meals_str := join (py ", ") (todays_menu req) in
       let recommendation := py "" in
       ret {| recommendation := recommendation |})
    (fun e =>
       if is_HTTPException e then raise e
       else
         emit (Stdout (py "Error generating recommendation: " ++ str_of rt e)) ;;
         raise (HTTPException 500
                  (py "Failed to generate recommendation: " ++ str_of rt e))).

End Handlers.

(** The status of the HTTP response the framework sends for a handler's
    outcome: 200 for a returned body, the carried status for an
    [HTTPException], 500 for any other exception. *)
Definition status_of {A : Type} (o : outcome A) : Z :=
  match o with
  | Ok _ => 200
  | Raise (HTTPException status_code _) => status_code
  | Raise (PyExc _ _) => 500
  end.

(* ===================================================================== *)
(** ** Stand-ins used in examples *)
(* ===================================================================== *)

(** An LLM that answers every prompt the same way, without any I/O. *)
Record FixedLLM : Type := { answer : outcome str }.

#[global] Instance FixedLLM_LLM : LLM FixedLLM := {
  _llm_type := fun _ => py "fixed";
  _call := fun _ self _ => lift (answer self)
}.

(** A runtime whose provider answers every request with [reply]. *)
Definition runtime_answering (reply : outcome Response) : Runtime :=
  {| requests_post := fun _ => reply;
     interp_text := fun _ => py "TypeError";
     str_HTTPException := fun _ detail => detail;
     encode_error_text :=
       fun _ => py "'utf-8' codec can't encode character: surrogates not allowed";
     encode_error_text_encodable := fun _ => eq_refl |}.

(** The body [{"choices": [{"message": {"content": content}}]}]. *)
Definition completion_body (content : str) : JSON :=
  JDict [ (py "choices",
           JList [ JDict [ (py "message",
                            JDict [ (py "content", JStr content) ]) ] ]) ].

Definition ok_response (body : JSON) : Response :=
  {| raise_for_status := None; response_json := Ok body |}.

Definition env_with_key : environ := [ (py "CHAIR_API_KEY", py "secret") ].
Definition env_without_key : environ := [].

Definition carbonara_request : MealRecommendationRequest :=
  {| user_id := py "u1";
     favorite_meals := [py "Lasagne"; py "Risotto"];
     today_menu := [ {| name := py "Spaghetti Carbonara" |};
                     {| name := py "Pizza" |} ] |}.

(** A provider that cannot be reached in time. *)
Definition rt_timeout : Runtime :=
  runtime_answering (Raise (PyExc RequestException (py "timed out"))).

(** A provider that answers with surrounding white space. *)
Definition rt_carbonara : Runtime :=
  runtime_answering
    (Ok (ok_response (completion_body (py "  Spaghetti Carbonara  ")))).

Definition spaced_carbonara : FixedLLM :=
  {| answer := Ok (py "  Spaghetti Carbonara  ") |}.

Definition no_favorites_request : MealRecommendationRequest :=
  {| user_id := py "u1";
     favorite_meals := [];
     today_menu := [ {| name := py "Pizza" |} ] |}.

Definition no_menu_request : MealRecommendationRequest :=
  {| user_id := py "u1";
     favorite_meals := [py "Lasagne"];
     today_menu := [] |}.

Definition other_user_request : MealRecommendationRequest :=
  {| user_id := py "u2";
     favorite_meals := favorite_meals carbonara_request;
     today_menu := today_menu carbonara_request |}.

(** A provider that answers "Pasta", and the same input for both transports. *)
Definition rt_pasta : Runtime :=
  runtime_answering (Ok (ok_response (completion_body (py "Pasta")))).

Definition pasta_http_request : RecommendRequest :=
  {| favorite_menu := [py "Pizza"]; todays_menu := [py "Pasta"] |}.

Definition pasta_grpc_request : MealRecommendationRequest :=
  {| user_id := py "u1";
     favorite_meals := [py "Pizza"];
     today_menu := [ {| name := py "Pasta" |} ] |}.

Definition empty_favorites_http_request : RecommendRequest :=
  {| favorite_menu := []; todays_menu := [py "Pasta"] |}.

(* ===================================================================== *)
(** ** The text of the prompt *)
(* ===================================================================== *)

(** The three pieces of [recommendation_prompt]'s template around its two
    fields; [format_recommendation_prompt] below shows that formatting the
    template yields [build_prompt]. *)
Definition prompt_head : str := py "You are a helpful food recommendation assistant. Your task is to suggest exactly one dish from today's menu based on the user's preferences.

User's favorite meals: ".

Definition prompt_middle : str := py "

Today's available meals: ".

Definition prompt_tail : str := py "

Based on the user's favorite meals, please recommend exactly ONE meal from today's available options. 
Consider:
- Similarity to the user's favorite meals
- Flavor profiles that match their preferences
- Availability in today's menu

IMPORTANT: You must respond with ONLY the exact name of one dish from today's menu. Do not include any explanations, additional text, punctuation, or formatting. Just return the dish name exactly as it appears in today's menu.

Example format: Spaghetti Carbonara

Recommendation:".

Definition build_prompt (favorites menu : list str) : str :=
  prompt_head ++ join (py ", ") favorites
  ++ prompt_middle ++ join (py ", ") menu ++ prompt_tail.

(** The sentence of the template that constrains the answer. *)
Definition constraint_phrase : str := py "IMPORTANT: You must respond with ONLY the exact name of one dish from today's menu. Do not include any explanations, additional text, punctuation, or formatting. Just return the dish name exactly as it appears in today's menu.".

(** The prompt [RecommendMeal] hands to the LLM for [request]. *)
Definition prompt_of (request : MealRecommendationRequest) : str :=
  build_prompt (favorite_meals request) (map name (today_menu request)).

(** The names of [names] occur in [s] one after the other, in the order of
    [names]. *)
Definition in_order (names : list str) (s : str) : Prop :=
  forall l1 x l2 y l3, names = l1 ++ x :: l2 ++ y :: l3 ->
    exists a b c, s = a ++ x ++ b ++ y ++ c.

Definition no_recommendation_no_favorites : MealRecommendationResponse :=
  {| recommended_meal_name := py "No recommendation available";
     reasoning := py "No favorite meals provided" |}.

Definition no_recommendation_no_menu : MealRecommendationResponse :=
  {| recommended_meal_name := py "No recommendation available";
     reasoning := py "No meals available today" |}.

Definition error_response (rt : Runtime) (e : exn) : MealRecommendationResponse :=
  {| recommended_meal_name := py "Error generating recommendation";
     reasoning := py "An error occurred: " ++ str_of rt e |}.

Definition success_response (text : str) (favorites : list str)
  : MealRecommendationResponse :=
  {| recommended_meal_name := strip text;
     reasoning := py "Recommended based on your favorites: "
                  ++ join (py ", ") favorites |}.

(* ===================================================================== *)
(** ** The parts of [OpenWebUILLM._call], named *)
(* ===================================================================== *)

(** The request [OpenWebUILLM._call] builds for [prompt]: the headers, the
    chat messages and the payload, sent to [api_url] with a timeout of 30. *)
Definition chat_request (self : OpenWebUILLM) (prompt : str) : HttpRequest :=
  {| url := api_url self;
     headers :=
       [ (py "Authorization", py "Bearer " ++ fmt (api_key self));
         (py "Content-Type", py "application/json") ];
     json :=
       JDict [ (py "model", JStr (model_name self));
               (py "messages",
                JList [ JDict [ (py "role", JStr (py "user"));
                                (py "content", JStr prompt) ] ]) ];
     timeout := 30 |}.

(** The part of [OpenWebUILLM._call] that reads the completion out of the
    decoded body. *)
Definition read_completion (rt : Runtime) (result : JSON) : M str :=
  nonempty <- py_and (py_in rt (py "choices") result)
                     (choices <- getitem rt result (py "choices") ;;
                      n <- len rt choices ;;
                      ret (0 <? n)%Z) ;;
  if (nonempty : bool) then
    choices <- getitem rt result (py "choices") ;;
    choice <- getitem_0 rt choices ;;
    message <- getitem rt choice (py "message") ;;
    content <- getitem rt message (py "content") ;;
    strip_method rt content
  else
    raise (PyExc ValueError (py "Unexpected response format from API")).

(** The two [except] clauses of [OpenWebUILLM._call]. *)
Definition wrap_errors (rt : Runtime) (e : exn) : M str :=
  if is_RequestException e then
    raise (PyExc Exception_ (py "API request failed: " ++ str_of rt e))
  else if is_KeyError_IndexError_ValueError e then
    raise (PyExc Exception_ (py "Failed to parse API response: " ++ str_of rt e))
  else raise e.

(** What the body of the [try] statement of [OpenWebUILLM._call] comes to,
    given the provider's answer to the request. *)
Definition attempt (rt : Runtime) (r : HttpRequest) : outcome str :=
  match requests_post rt r with
  | Raise e => Raise e
  | Ok response =>
      match raise_for_status response with
      | Some e => Raise e
      | None =>
          match response_json response with
          | Raise e => Raise e
          | Ok result => outcome_of (read_completion rt result)
          end
      end
  end.

Definition is_http_post (ev : event) : bool :=
  match ev with
  | HttpPost _ => true
  | LlmCall _ | Stdout _ => false
  end.

(** The number of requests sent to the provider. *)
Definition outbound_requests (tr : list event) : nat :=
  List.length (filter is_http_post tr).

Definition is_stdout (ev : event) : bool :=
  match ev with
  | Stdout _ => true
  | LlmCall _ | HttpPost _ => false
  end.

(** The lines printed. *)
Definition printed (tr : list event) : list event := filter is_stdout tr.

(** The lists of an HTTP request as a gRPC request of user [uid]. *)
Definition as_grpc_request (uid : str) (req : RecommendRequest)
  : MealRecommendationRequest :=
  {| user_id := uid;
     favorite_meals := favorite_menu req;
     today_menu := map (fun n => {| name := n |}) (todays_menu req) |}.

(** The provider answers the request [r] with a success status and a body
    that decodes to [body]. *)
Definition provider_answers (rt : Runtime) (r : HttpRequest) (body : JSON)
  : Prop :=
  exists response,
    requests_post rt r = Ok response
    /\ raise_for_status response = None
    /\ response_json response = Ok body.

(** The exchange for the request [r] fails with [e]: sending it, the status
    check or the decoding of the body raises [e]. *)
Definition exchange_fails (rt : Runtime) (r : HttpRequest) (e : exn) : Prop :=
  requests_post rt r = Raise e
  \/ exists response,
       requests_post rt r = Ok response
       /\ (raise_for_status response = Some e
           \/ (raise_for_status response = None
               /\ response_json response = Raise e)).

(** The [except] block of [RecommendMeal]. *)
Definition except_block (rt : Runtime) (e : exn) : M MealRecommendationResponse :=
  emit (Stdout (py "Error in gRPC recommendation: " ++ str_of rt e)) ;;
  new_MealRecommendationResponse rt
    (py "Error generating recommendation")
    (py "An error occurred: " ++ str_of rt e).

(** The response [RecommendMeal] builds from the LLM's answer [text]. *)
Definition build_success (rt : Runtime) (text : str) (favorites : list str)
  : M MealRecommendationResponse :=
  new_MealRecommendationResponse rt
    (strip text)
    (py "Recommended based on your favorites: " ++ join (py ", ") favorites).

(** The line [RecommendMeal] prints for the error [e]. *)
Definition error_line (rt : Runtime) (e : exn) : event :=
  Stdout (py "Error in gRPC recommendation: " ++ str_of rt e).

(** The error raised for the text [s] that cannot be encoded. *)
Definition encode_error (rt : Runtime) (s : str) : exn :=
  PyExc ValueError (encode_error_text rt s).

(** The favorites of a request that came over the wire: every string of a
    protobuf message can be encoded as UTF-8. *)
Definition favorites_encodable (request : MealRecommendationRequest) : bool :=
  forallb encodable (favorite_meals request).

(** An LLM whose call raises an error with the text "\ud83c", a lone
    surrogate. *)
Definition surrogate_error : FixedLLM :=
  {| answer := Raise (PyExc Exception_ [55356%N]) |}.

(** LLMs that answer with a lone surrogate, bare or between white space. *)
Definition surrogate_answer : FixedLLM := {| answer := Ok [55356%N] |}.

Definition spaced_surrogate_answer : FixedLLM :=
  {| answer := Ok [32%N; 56320%N; 32%N] |}.

(** An LLM that names, between white space, a dish that is not on the menu. *)
Definition spaced_off_menu : FixedLLM :=
  {| answer := Ok (py "  Sushi  ") |}.

(** A provider whose completion carries further keys, as a real one does. *)
Definition rt_full_completion : Runtime :=
  runtime_answering
    (Ok (ok_response
           (JDict
              [ (py "id", JStr (py "chatcmpl-1"));
                (py "choices",
                 JList
                   [ JDict
                       [ (py "index", JInt 0);
                         (py "message",
                          JDict [ (py "role", JStr (py "assistant"));
                                  (py "content",
                                   JStr (py "  Spaghetti Carbonara  ")) ]);
                         (py "finish_reason", JStr (py "stop")) ] ]);
                (py "usage", JDict [ (py "total_tokens", JInt 42) ]) ]))).

(** Further stand-ins used in examples. *)
Definition rt_no_choices : Runtime :=
  runtime_answering (Ok (ok_response (JDict [ (py "error", JStr (py "busy")) ]))).

Definition rt_no_message : Runtime :=
  runtime_answering
    (Ok (ok_response
           (JDict [ (py "choices", JList [ JDict [ (py "index", JInt 0) ] ]) ]))).

Definition rt_null_content : Runtime :=
  runtime_answering
    (Ok (ok_response
           (JDict [ (py "choices",
                     JList [ JDict [ (py "message",
                                      JDict [ (py "content", JNull) ]) ] ]) ]))).

Definition rt_server_error : Runtime :=
  runtime_answering
    (Ok {| raise_for_status :=
             Some (PyExc RequestException (py "500 Server Error"));
           response_json := Ok (completion_body (py "Pizza")) |}).

Definition env_with_empty_key : environ := [ (py "CHAIR_API_KEY", py "") ].

(* ===================================================================== *)
(** * Properties *)
(* ===================================================================== *)

Arguments py : simpl never.

(** ** Strings *)

Lemma codepoint_eqb_eq (c d : codepoint) : codepoint_eqb c d = true <-> c = d.
Proof. apply N.eqb_eq. Qed.

Lemma str_eqb_eq (s t : str) : str_eqb s t = true <-> s = t.
Proof.
  revert t; induction s as [|c s IH]; intros [|d t]; simpl;
    try (split; [discriminate | congruence]); try tauto.
  rewrite andb_true_iff, codepoint_eqb_eq, IH.
  split; [intros [-> ->]; reflexivity | intros E; inversion E; auto].
Qed.

Lemma str_eqb_refl (s : str) : str_eqb s s = true.
Proof. apply str_eqb_eq; reflexivity. Qed.

Lemma is_empty_false {A : Type} (l : list A) : is_empty l = false <-> l <> [].
Proof. destruct l; simpl; split; congruence. Qed.

Lemma is_empty_true {A : Type} (l : list A) : is_empty l = true <-> l = [].
Proof. destruct l; simpl; split; congruence. Qed.

Lemma is_empty_map {A B : Type} (f : A -> B) (l : list A) :
  is_empty (map f l) = is_empty l.
Proof. destruct l; reflexivity. Qed.

(** *** [strip] *)

Lemma lstrip_head (s : str) c t : lstrip s = c :: t -> is_space c = false.
Proof.
  induction s as [|d s IH]; simpl; [discriminate|].
  destruct (is_space d) eqn:E; [exact IH|].
  intros H; inversion H; subst; exact E.
Qed.

Lemma lstrip_fixed (s : str) :
  (forall c t, s = c :: t -> is_space c = false) -> lstrip s = s.
Proof.
  destruct s as [|c s]; intros H; simpl; [reflexivity|].
  rewrite (H c s eq_refl); reflexivity.
Qed.

Lemma rstrip_head (s : str) c :
  is_space c = false -> exists t', rstrip (c :: s) = c :: t'.
Proof.
  intros E; simpl. destruct (rstrip s); [rewrite E|]; eauto.
Qed.

Lemma rstrip_idem (s : str) : rstrip (rstrip s) = rstrip s.
Proof.
  induction s as [|c s IH]; simpl; [reflexivity|].
  destruct (rstrip s) as [|d u] eqn:E.
  - destruct (is_space c) eqn:Ec; simpl; [reflexivity|]. rewrite Ec; reflexivity.
  - simpl in IH |- *. rewrite IH. reflexivity.
Qed.

Lemma lstrip_rstrip (s : str) :
  (forall c t, s = c :: t -> is_space c = false) -> lstrip (rstrip s) = rstrip s.
Proof.
  intros H. apply lstrip_fixed. intros c t E.
  destruct s as [|d s]; [discriminate|].
  pose proof (H d s eq_refl) as Hd.
  destruct (@rstrip_head s d Hd) as [t' Ht']. rewrite Ht' in E.
  inversion E; subst; exact Hd.
Qed.

(** Stripping a stripped string changes nothing. *)
Lemma strip_idem (s : str) : strip (strip s) = strip s.
Proof.
  unfold strip. rewrite lstrip_rstrip by (intros c t; apply lstrip_head).
  apply rstrip_idem.
Qed.

Lemma lstrip_split (s : str) :
  exists l, s = l ++ lstrip s /\ forallb is_space l = true.
Proof.
  induction s as [|c s [l [E F]]]; simpl.
  - exists []; auto.
  - destruct (is_space c) eqn:Ec.
    + exists (c :: l); simpl. rewrite Ec, F. split; [congruence | reflexivity].
    + exists []; auto.
Qed.

Lemma rstrip_split (s : str) :
  exists r, s = rstrip s ++ r /\ forallb is_space r = true.
Proof.
  induction s as [|c s [r [E F]]]; simpl.
  - exists []; auto.
  - destruct (rstrip s) as [|d u] eqn:Eu.
    + destruct (is_space c) eqn:Ec.
      * exists (c :: r); simpl. rewrite Ec, F. simpl in E. subst s. auto.
      * exists r. simpl in E |- *. subst s. auto.
    + exists r. split; [|exact F]. simpl. f_equal. exact E.
Qed.

Lemma rstrip_last (s : str) t c : rstrip s = t ++ [c] -> is_space c = false.
Proof.
  revert t; induction s as [|d s IH]; intros t; simpl.
  - destruct t; discriminate.
  - destruct (rstrip s) as [|e u] eqn:Eu.
    + destruct (is_space d) eqn:Ed.
      * destruct t; discriminate.
      * destruct t as [|x [|y t]]; simpl; intros H; inversion H; subst; auto.
    + destruct t as [|x t]; simpl; intros H; inversion H; subst.
      eapply IH; eauto.
Qed.

(** [strip s] is [s] without a run of white space at each end, and neither
    begins nor ends with white space. *)
Lemma strip_spec (s : str) :
  (exists l r, s = l ++ strip s ++ r
               /\ forallb is_space l = true /\ forallb is_space r = true)
  /\ (forall c t, strip s = c :: t -> is_space c = false)
  /\ (forall t c, strip s = t ++ [c] -> is_space c = false).
Proof.
  unfold strip. split; [|split].
  - destruct (lstrip_split s) as [l [El Fl]].
    destruct (rstrip_split (lstrip s)) as [r [Er Fr]].
    exists l, r. split; [|auto]. rewrite <- Er. exact El.
  - intros c t E.
    destruct (lstrip s) as [|d u] eqn:Ed; [discriminate|].
    pose proof (lstrip_head Ed) as Hd.
    destruct (@rstrip_head u d Hd) as [t' Ht']. rewrite Ht' in E.
    inversion E; subst; exact Hd.
  - intros t c. apply rstrip_last.
Qed.

(** *** Occurrences *)

Lemma occurs_in_refl (s : str) : occurs_in s s.
Proof. exists [], []. rewrite app_nil_r. reflexivity. Qed.

Lemma occurs_in_app_l (n h p : str) : occurs_in n h -> occurs_in n (p ++ h).
Proof.
  intros [a [b ->]]. exists (p ++ a), b. rewrite <- app_assoc. reflexivity.
Qed.

Lemma occurs_in_app_r (n h q : str) : occurs_in n h -> occurs_in n (h ++ q).
Proof.
  intros [a [b ->]]. exists a, (b ++ q). rewrite <- !app_assoc. reflexivity.
Qed.

Lemma occurs_in_trans (a b c : str) :
  occurs_in a b -> occurs_in b c -> occurs_in a c.
Proof.
  intros Hab [p [q ->]]. apply occurs_in_app_l, occurs_in_app_r, Hab.
Qed.

Create HintDb occ.
#[local] Hint Resolve occurs_in_refl occurs_in_app_l occurs_in_app_r : occ.

Lemma starts_with_prefix (n h : str) :
  starts_with n h = true <-> exists post, h = n ++ post.
Proof.
  revert h; induction n as [|c n IH]; intros h; simpl.
  - split; eauto.
  - destruct h as [|d h].
    + split; [discriminate | intros [post E]; discriminate].
    + rewrite andb_true_iff, codepoint_eqb_eq, IH. split.
      * intros [-> [post ->]]. eauto.
      * intros [post E]. inversion E; subst. eauto.
Qed.

(** The test [needle in hay] decides [occurs_in]. *)
Lemma contains_occurs_in (n h : str) : contains n h = true <-> occurs_in n h.
Proof.
  induction h as [|d h IH]; simpl; rewrite orb_true_iff, starts_with_prefix.
  - split.
    + intros [[post E] | F]; [|discriminate]. exists [], post. exact E.
    + intros [[|x pre] [post E]]; [left; eauto | discriminate].
  - rewrite IH. split.
    + intros [[post E] | [pre [post E]]].
      * exists [], post. exact E.
      * exists (d :: pre), post. simpl. congruence.
    + intros [[|x pre] [post E]].
      * left. eauto.
      * right. inversion E; subst. exists pre, post. reflexivity.
Qed.

(** *** [join] *)

Lemma join_cons (sep p : str) (rest : list str) :
  rest <> [] -> join sep (p :: rest) = p ++ sep ++ join sep rest.
Proof. destruct rest; [congruence | reflexivity]. Qed.

Lemma join_middle (sep x : str) (l1 l2 : list str) :
  exists a, join sep (l1 ++ x :: l2)
            = a ++ x ++ (if is_empty l2 then [] else sep ++ join sep l2).
Proof.
  induction l1 as [|p l1 [a IH]].
  - exists []. destruct l2; simpl; [rewrite app_nil_r|]; reflexivity.
  - exists (p ++ sep ++ a). rewrite <- app_comm_cons, join_cons.
    + rewrite IH, <- !app_assoc. reflexivity.
    + destruct l1; discriminate.
Qed.

(** Every part occurs in the joined string. *)
Lemma join_occurs (sep x : str) (parts : list str) :
  In x parts -> occurs_in x (join sep parts).
Proof.
  intros H. destruct (in_split _ _ H) as [l1 [l2 ->]].
  destruct (join_middle sep x l1 l2) as [a ->]. eauto with occ.
Qed.

(** The parts occur in the joined string in the order of the list. *)
Lemma join_in_order (sep : str) (parts : list str) :
  in_order parts (join sep parts).
Proof.
  intros l1 x l2 y l3 ->.
  destruct (join_middle sep x l1 (l2 ++ y :: l3)) as [a ->].
  destruct (join_middle sep y l2 l3) as [b E].
  replace (is_empty (l2 ++ y :: l3)) with false by (destruct l2; reflexivity).
  rewrite E. exists a, (sep ++ b), (if is_empty l3 then [] else sep ++ join sep l3).
  rewrite <- !app_assoc. reflexivity.
Qed.

Lemma in_order_app (names : list str) (p s q : str) :
  in_order names s -> in_order names (p ++ s ++ q).
Proof.
  intros H l1 x l2 y l3 E. destruct (H l1 x l2 y l3 E) as [a [b [c ->]]].
  exists (p ++ a), b, (c ++ q). rewrite <- !app_assoc. reflexivity.
Qed.

(** ** The prompt template *)

Lemma lookup_here {V : Type} (k : str) (v : V) rest :
  lookup k ((k, v) :: rest) = Some v.
Proof. simpl. rewrite str_eqb_refl. reflexivity. Qed.

Lemma lookup_next {V : Type} (k k' : str) (v : V) rest :
  str_eqb k' k = false -> lookup k ((k', v) :: rest) = lookup k rest.
Proof. intros E. simpl. rewrite E. reflexivity. Qed.

Lemma parse_recommendation_prompt :
  parse_format (template recommendation_prompt) [] None
  = Ok [ Text prompt_head; Field (py "favorite_menu");
         Text prompt_middle; Field (py "todays_menu"); Text prompt_tail ].
Proof. vm_compute. reflexivity. Qed.

(** Formatting the template puts the two clauses between its three pieces
    of text; no variable is missing. *)
Lemma format_recommendation_prompt (f t : str) :
  format recommendation_prompt
    [ (py "favorite_menu", f); (py "todays_menu", t) ]
  = Ok (prompt_head ++ f ++ prompt_middle ++ t ++ prompt_tail).
Proof.
  unfold format. rewrite parse_recommendation_prompt.
  cbn [substitute]. rewrite lookup_here.
  rewrite lookup_next by (vm_compute; reflexivity). rewrite lookup_here.
  rewrite app_nil_r. reflexivity.
Qed.

Lemma constraint_phrase_in_tail : occurs_in constraint_phrase prompt_tail.
Proof.
  apply contains_occurs_in. vm_compute. reflexivity.
Qed.

(** ** Text that can be encoded, and building the response *)

Lemma encodable_app (a b : str) :
  encodable (a ++ b) = encodable a && encodable b.
Proof. apply forallb_app. Qed.

Lemma encodable_join (sep : str) (parts : list str) :
  encodable sep = true -> forallb encodable parts = true ->
  encodable (join sep parts) = true.
Proof.
  intros Hsep. induction parts as [|p rest IH]; [reflexivity|].
  cbn [forallb]. rewrite andb_true_iff. intros [Hp Hrest].
  destruct rest as [|q rest]; [exact Hp|].
  rewrite join_cons by discriminate.
  rewrite !encodable_app, Hp, Hsep, (IH Hrest). reflexivity.
Qed.

Section Response.

Variable rt : Runtime.

Lemma new_response_ok (n r : str) :
  encodable n = true -> encodable r = true ->
  new_MealRecommendationResponse rt n r
  = (Ok {| recommended_meal_name := n; reasoning := r |}, []).
Proof.
  intros Hn Hr. unfold new_MealRecommendationResponse. rewrite Hn, Hr.
  reflexivity.
Qed.

Lemma new_response_silent (n r : str) :
  silent (new_MealRecommendationResponse rt n r).
Proof.
  unfold new_MealRecommendationResponse.
  destruct (encodable n); [destruct (encodable r)|]; reflexivity.
Qed.

(** When the response cannot be built, the error is that of the first field
    that cannot be encoded, and its own text can be. *)
Lemma new_response_raises (n r : str) (e : exn) :
  outcome_of (new_MealRecommendationResponse rt n r) = Raise e ->
  e = encode_error rt (if encodable n then r else n)
  /\ encodable (if encodable n then r else n) = false
  /\ encodable (str_of rt e) = true.
Proof.
  unfold new_MealRecommendationResponse, encode_error.
  destruct (encodable n) eqn:Hn; [destruct (encodable r) eqn:Hr|];
    cbn; intros E; inversion E; subst; repeat split;
    try assumption; apply encode_error_text_encodable.
Qed.

Lemma build_success_silent (text : str) (favorites : list str) :
  silent (build_success rt text favorites).
Proof. apply new_response_silent. Qed.

Lemma build_success_ok (text : str) (favorites : list str) :
  encodable (strip text) = true -> forallb encodable favorites = true ->
  build_success rt text favorites = (Ok (success_response text favorites), []).
Proof.
  intros Ht Hf. unfold build_success. apply new_response_ok; [exact Ht|].
  rewrite encodable_app, encodable_join by (reflexivity || exact Hf).
  reflexivity.
Qed.

Lemma except_block_trace (e : exn) :
  trace_of (except_block rt e) = [error_line rt e].
Proof.
  unfold except_block. pose proof (new_response_silent
    (py "Error generating recommendation")
    (py "An error occurred: " ++ str_of rt e)) as Hs.
  unfold silent, trace_of, bind, emit in *.
  destruct (new_MealRecommendationResponse rt _ _) as [o tr].
  cbn [fst snd] in *. subst tr. reflexivity.
Qed.

(** The [except] block returns the error sentinel when the text of the
    error can be encoded. *)
Lemma except_block_ok (e : exn) :
  encodable (str_of rt e) = true ->
  except_block rt e = (Ok (error_response rt e), [error_line rt e]).
Proof.
  intros He. unfold except_block.
  rewrite new_response_ok; [reflexivity | reflexivity |].
  rewrite encodable_app, He. reflexivity.
Qed.


End Response.

(** ** Running the chain and the gRPC handler *)

Section Engine.

Context {T : Type} `{LLM T}.
Variable rt : Runtime.
Variable l : T.

(** The chain formats the prompt, hands it to the LLM once and returns or
    raises whatever the LLM does. *)
Lemma recommendation_chain_run (f t : str) :
  let p := prompt_head ++ f ++ prompt_middle ++ t ++ prompt_tail in
  recommendation_chain l rt [ (py "favorite_menu", f); (py "todays_menu", t) ]
  = (outcome_of (_call rt l p), LlmCall p :: trace_of (_call rt l p)).
Proof.
  intros p. unfold recommendation_chain, pipe.
  rewrite format_recommendation_prompt. fold p.
  unfold bind, lift, emit, outcome_of, trace_of.
  destruct (_call rt l p) as [[text | e] tr]; reflexivity.
Qed.

(** What the handler does once both lists are non-empty: one call of the
    LLM on [prompt_of request]; its answer becomes the response when the
    response can be built, and the [except] block takes over when the LLM
    raises or the response cannot be built. *)
Lemma RecommendMeal_run (request : MealRecommendationRequest) :
  favorite_meals request <> [] -> today_menu request <> [] ->
  RecommendMeal rt l request
  = match _call rt l (prompt_of request) with
    | (Ok text, tr) =>
        match outcome_of (build_success rt text (favorite_meals request)) with
        | Ok response => (Ok response, LlmCall (prompt_of request) :: tr)
        | Raise e =>
            (outcome_of (except_block rt e),
             (LlmCall (prompt_of request) :: tr) ++ [error_line rt e])
        end
    | (Raise e, tr) =>
        (outcome_of (except_block rt e),
         (LlmCall (prompt_of request) :: tr) ++ [error_line rt e])
    end.
Proof.
  intros Hf Hm. unfold RecommendMeal.
  apply is_empty_false in Hf. rewrite Hf.
  rewrite is_empty_map. apply is_empty_false in Hm. rewrite Hm.
  rewrite recommendation_chain_run.
  change (fun e : exn =>
            emit (Stdout (py "Error in gRPC recommendation: " ++ str_of rt e)) ;;
            new_MealRecommendationResponse rt
              (py "Error generating recommendation")
              (py "An error occurred: " ++ str_of rt e))
    with (except_block rt).
  change (fun recommendation : str =>
            new_MealRecommendationResponse rt (strip recommendation)
              (py "Recommended based on your favorites: "
               ++ join (py ", ") (favorite_meals request)))
    with (fun recommendation : str =>
            build_success rt recommendation (favorite_meals request)).
  unfold prompt_of, build_prompt, outcome_of, trace_of.
  destruct (_call rt l _) as [[text | e] tr]; unfold try_except, bind;
    cbn [fst snd].
  - pose proof (build_success_silent rt text (favorite_meals request)) as Hs.
    unfold silent, trace_of in Hs.
    destruct (build_success rt text (favorite_meals request)) as [[r | e] tr'];
      cbn [fst snd] in *; subst tr'.
    + rewrite app_nil_r. reflexivity.
    + rewrite app_nil_r. pose proof (except_block_trace rt e) as Ht.
      unfold trace_of in Ht.
      destruct (except_block rt e) as [o tr']. cbn [fst snd] in *. subst tr'.
      reflexivity.
  - pose proof (except_block_trace rt e) as Ht. unfold trace_of in Ht.
    destruct (except_block rt e) as [o tr']. cbn [fst snd] in *. subst tr'.
    reflexivity.
Qed.

Lemma RecommendMeal_no_favorites (request : MealRecommendationRequest) :
  favorite_meals request = [] ->
  RecommendMeal rt l request = (Ok no_recommendation_no_favorites, []).
Proof. intros E. unfold RecommendMeal. rewrite E. reflexivity. Qed.

Lemma RecommendMeal_no_menu (request : MealRecommendationRequest) :
  favorite_meals request <> [] -> today_menu request = [] ->
  RecommendMeal rt l request = (Ok no_recommendation_no_menu, []).
Proof.
  intros Hf E. unfold RecommendMeal.
  apply is_empty_false in Hf. rewrite Hf, E. reflexivity.
Qed.

End Engine.

(** ** The Open WebUI wrapper *)

(** Without a credential the call raises before anything is sent. *)
Lemma OpenWebUILLM_call_no_key (rt : Runtime) (self : OpenWebUILLM) (prompt : str) :
  truthy (api_key self) = false ->
  OpenWebUILLM_call rt self prompt
  = (Raise (PyExc ValueError
              (py "CHAIR_API_KEY environment variable is required")), []).
Proof. intros E. unfold OpenWebUILLM_call. rewrite E. reflexivity. Qed.

(** A completion with the expected shape is returned stripped, after exactly
    one request. *)
Lemma OpenWebUILLM_call_completion (rt : Runtime) (self : OpenWebUILLM)
  (prompt content : str) :
  truthy (api_key self) = true ->
  (forall r, requests_post rt r = Ok (ok_response (completion_body content))) ->
  exists r,
    OpenWebUILLM_call rt self prompt = (Ok (strip content), [HttpPost r])
    /\ url r = api_url self /\ timeout r = 30%Z.
Proof.
  intros E Hpost. unfold OpenWebUILLM_call, post. rewrite E. cbn [negb].
  eexists. rewrite Hpost. split; [reflexivity | split; reflexivity].
Qed.

(** A failed request surfaces with the text of the underlying error. *)
Lemma OpenWebUILLM_call_request_failed (rt : Runtime) (self : OpenWebUILLM)
  (prompt : str) (e : exn) :
  truthy (api_key self) = true ->
  (forall r, requests_post rt r = Raise e) ->
  is_RequestException e = true ->
  outcome_of (OpenWebUILLM_call rt self prompt)
  = Raise (PyExc Exception_ (py "API request failed: " ++ str_of rt e)).
Proof.
  intros E Hpost He. unfold OpenWebUILLM_call, post. rewrite E. cbn [negb].
  rewrite Hpost. cbn. rewrite He. reflexivity.
Qed.

(** *** Computations that perform no action *)

Lemma silent_ret {A : Type} (a : A) : silent (ret a).
Proof. reflexivity. Qed.

Lemma silent_raise {A : Type} (e : exn) : silent (@raise A e).
Proof. reflexivity. Qed.

Lemma silent_lift {A : Type} (o : outcome A) : silent (lift o).
Proof. reflexivity. Qed.

Lemma trace_of_bind {A B : Type} (m : M A) (k : A -> M B) :
  (forall a, silent (k a)) -> trace_of (bind m k) = trace_of m.
Proof.
  intros Hk. destruct m as [[a | e] tr]; unfold bind, trace_of; cbn.
  - specialize (Hk a). unfold silent, trace_of in Hk.
    destruct (k a) as [r tr']. cbn in Hk |- *. subst tr'. apply app_nil_r.
  - reflexivity.
Qed.

Lemma trace_of_try_except {A : Type} (m : M A) (h : exn -> M A) :
  (forall e, silent (h e)) -> trace_of (try_except m h) = trace_of m.
Proof.
  intros Hh. destruct m as [[a | e] tr]; unfold try_except, trace_of; cbn.
  - reflexivity.
  - specialize (Hh e). unfold silent, trace_of in Hh.
    destruct (h e) as [r tr']. cbn in Hh |- *. subst tr'. apply app_nil_r.
Qed.

Lemma silent_bind {A B : Type} (m : M A) (k : A -> M B) :
  silent m -> (forall a, silent (k a)) -> silent (bind m k).
Proof. intros Hm Hk. unfold silent. rewrite trace_of_bind; assumption. Qed.

Create HintDb silent.
#[local] Hint Resolve silent_ret silent_raise silent_lift : silent.

Ltac silent_ops :=
  repeat first
    [ apply silent_bind; [| intros ?]
    | match goal with
      | |- silent (match ?x with _ => _ end) => destruct x
      | |- silent (if ?b then _ else _) => destruct b
      end
    | solve [auto with silent] ].

Section Silent.

Variable rt : Runtime.

Lemma silent_py_in needle v : silent (py_in rt needle v).
Proof. unfold py_in, type_error. silent_ops. Qed.

Lemma silent_getitem v key : silent (getitem rt v key).
Proof. unfold getitem, type_error. silent_ops. Qed.

Lemma silent_getitem_0 v : silent (getitem_0 rt v).
Proof. unfold getitem_0, type_error. silent_ops. Qed.

Lemma silent_len v : silent (len rt v).
Proof. unfold len, type_error. silent_ops. Qed.

Lemma silent_strip_method v : silent (strip_method rt v).
Proof. unfold strip_method. silent_ops. Qed.

Lemma silent_check_status response : silent (check_status response).
Proof. unfold check_status. silent_ops. Qed.

End Silent.

#[local] Hint Resolve silent_py_in silent_getitem silent_getitem_0 silent_len
  silent_strip_method silent_check_status : silent.

(** The wrapper sends one request when it holds a credential and none
    otherwise: there is no retry, and reading the answer performs no I/O. *)
Lemma OpenWebUILLM_call_trace (rt : Runtime) (self : OpenWebUILLM) (prompt : str) :
  exists r,
    url r = api_url self /\ timeout r = 30%Z
    /\ trace_of (OpenWebUILLM_call rt self prompt)
       = if truthy (api_key self) then [HttpPost r] else [].
Proof.
  unfold OpenWebUILLM_call.
  destruct (truthy (api_key self)); cbn [negb].
  - eexists. split; [|split]; [| |rewrite trace_of_try_except].
    3:{ rewrite trace_of_bind.
        - unfold post. rewrite trace_of_bind by auto with silent. reflexivity.
        - intros response. unfold py_and. silent_ops. }
    + reflexivity.
    + reflexivity.
    + intros e. silent_ops.
  - exists {| url := api_url self; headers := []; json := JNull; timeout := 30 |}.
    repeat split.
Qed.

Lemma OpenWebUILLM_call_single_request (rt : Runtime) (self : OpenWebUILLM)
  (prompt : str) :
  (provider_calls (trace_of (OpenWebUILLM_call rt self prompt)) <= 1)%nat.
Proof.
  destruct (OpenWebUILLM_call_trace rt self prompt) as [r [_ [_ ->]]].
  destruct (truthy (api_key self)); cbn; lia.
Qed.

(* ===================================================================== *)
(** * The claims of the specification *)
(* ===================================================================== *)



(** C2, as the code has it. With non-empty favorites (strings of a protobuf
    message, hence encodable) and a non-empty menu, when the LLM returns
    [text] and [text] stripped can be encoded as UTF-8, the handler returns
    [text] stripped of surrounding white space as the recommended meal, and
    the reasoning is "Recommended based on your favorites: " followed by
    the favorites joined with ", ". *)
Theorem RecommendMeal_trims_answer {T : Type} `{LLM T} (rt : Runtime) (l : T)
  (request : MealRecommendationRequest) (text : str) :
  favorite_meals request <> [] -> today_menu request <> [] ->
  favorites_encodable request = true ->
  outcome_of (_call rt l (prompt_of request)) = Ok text ->
  encodable (strip text) = true ->
  outcome_of (RecommendMeal rt l request)
  = Ok {| recommended_meal_name := strip text;
          reasoning := py "Recommended based on your favorites: "
                       ++ join (py ", ") (favorite_meals request) |}.
Proof.
  intros Hf Hm Hw E Ht. rewrite RecommendMeal_run by assumption.
  unfold outcome_of in *.
  destruct (_call rt l (prompt_of request)) as [[text' | e] tr]; cbn [fst] in *;
    [|discriminate].
  inversion E; subst text'. rewrite build_success_ok by assumption.
  reflexivity.
Qed.

Lemma RecommendMeal_trims_answer_witness :
  outcome_of (RecommendMeal rt_timeout spaced_carbonara carbonara_request)
  = Ok {| recommended_meal_name := py "Spaghetti Carbonara";
          reasoning := py "Recommended based on your favorites: Lasagne, Risotto" |}.
Proof.
  rewrite (@RecommendMeal_trims_answer _ _ rt_timeout spaced_carbonara
             carbonara_request (py "  Spaghetti Carbonara  "));
    [vm_compute; reflexivity | discriminate | discriminate | reflexivity
    | reflexivity | reflexivity].
Defined.

(** C2 as stated fails: an LLM that answers with the lone surrogate U+D83C
    gets the error sentinel, not its answer stripped. *)
Lemma RecommendMeal_trims_answer_counterexample :
  ~ (forall (T : Type) (HT : LLM T) (rt : Runtime) (l : T)
            (request : MealRecommendationRequest) (text : str),
        favorite_meals request <> [] -> today_menu request <> [] ->
        outcome_of (_call rt l (prompt_of request)) = Ok text ->
        outcome_of (RecommendMeal rt l request)
        = Ok {| recommended_meal_name := strip text;
                reasoning := py "Recommended based on your favorites: "
                             ++ join (py ", ") (favorite_meals request) |}).
Proof.
  intros Hall.
  specialize (Hall FixedLLM FixedLLM_LLM rt_timeout surrogate_answer
                carbonara_request [55356%N]).
  assert (E : outcome_of
                (RecommendMeal rt_timeout surrogate_answer carbonara_request)
              = Ok {| recommended_meal_name :=
                        py "Error generating recommendation";
                      reasoning :=
                        py "An error occurred: 'utf-8' codec can't encode character: surrogates not allowed" |})
    by (vm_compute; reflexivity).
  rewrite E in Hall.
  specialize (Hall ltac:(discriminate) ltac:(discriminate) eq_refl).
  vm_compute in Hall. discriminate Hall.
Qed.

(** C3. With an empty list of favorites (whatever the menu) the handler
    returns "No recommendation available" with the reasoning
    "No favorite meals provided", and nothing is handed to the LLM or sent
    to the provider: the handler performs no action at all. *)
Theorem RecommendMeal_empty_favorites {T : Type} `{LLM T} (rt : Runtime) (l : T)
  (request : MealRecommendationRequest) :
  favorite_meals request = [] ->
  outcome_of (RecommendMeal rt l request)
  = Ok {| recommended_meal_name := py "No recommendation available";
          reasoning := py "No favorite meals provided" |}
  /\ trace_of (RecommendMeal rt l request) = []
  /\ provider_calls (trace_of (RecommendMeal rt l request)) = 0%nat.
Proof.
  intros E. rewrite RecommendMeal_no_favorites by exact E. repeat split.
Qed.

Lemma RecommendMeal_empty_favorites_witness :
  outcome_of (RecommendMeal rt_carbonara (llm env_with_key) no_favorites_request)
  = Ok {| recommended_meal_name := py "No recommendation available";
          reasoning := py "No favorite meals provided" |}
  /\ trace_of (RecommendMeal rt_carbonara (llm env_with_key) no_favorites_request)
     = []
  /\ provider_calls
       (trace_of (RecommendMeal rt_carbonara (llm env_with_key)
                    no_favorites_request)) = 0%nat.
Proof.
  apply (@RecommendMeal_empty_favorites _ _ rt_carbonara (llm env_with_key)
           no_favorites_request).
  reflexivity.
Defined.

(** C4. With non-empty favorites and an empty menu the handler returns
    "No recommendation available" with the reasoning
    "No meals available today", and nothing is handed to the LLM or sent to
    the provider. *)
Theorem RecommendMeal_empty_menu {T : Type} `{LLM T} (rt : Runtime) (l : T)
  (request : MealRecommendationRequest) :
  favorite_meals request <> [] -> today_menu request = [] ->
  outcome_of (RecommendMeal rt l request)
  = Ok {| recommended_meal_name := py "No recommendation available";
          reasoning := py "No meals available today" |}
  /\ trace_of (RecommendMeal rt l request) = []
  /\ provider_calls (trace_of (RecommendMeal rt l request)) = 0%nat.
Proof.
  intros Hf E. rewrite RecommendMeal_no_menu by assumption. repeat split.
Qed.

Lemma RecommendMeal_empty_menu_witness :
  outcome_of (RecommendMeal rt_carbonara (llm env_with_key) no_menu_request)
  = Ok {| recommended_meal_name := py "No recommendation available";
          reasoning := py "No meals available today" |}
  /\ trace_of (RecommendMeal rt_carbonara (llm env_with_key) no_menu_request) = []
  /\ provider_calls
       (trace_of (RecommendMeal rt_carbonara (llm env_with_key) no_menu_request))
     = 0%nat.
Proof.
  apply (@RecommendMeal_empty_menu _ _ rt_carbonara (llm env_with_key)
           no_menu_request).
  - discriminate.
  - reflexivity.
Defined.

(** C5, as the code has it. With non-empty favorites and a non-empty menu,
    whatever text the LLM returns that, stripped, can be encoded as UTF-8,
    the handler returns that text stripped as the recommended meal; the
    menu is not consulted, so an answer that is not on the menu is returned
    all the same. *)
Theorem RecommendMeal_does_not_check_menu {T : Type} `{LLM T} (rt : Runtime)
  (l : T) (request : MealRecommendationRequest) (text : str) :
  favorite_meals request <> [] -> today_menu request <> [] ->
  favorites_encodable request = true ->
  outcome_of (_call rt l (prompt_of request)) = Ok text ->
  encodable (strip text) = true ->
  exists response,
    outcome_of (RecommendMeal rt l request) = Ok response
    /\ recommended_meal_name response = strip text.
Proof.
  intros Hf Hm Hw E Ht. rewrite RecommendMeal_run by assumption.
  unfold outcome_of in *.
  destruct (_call rt l (prompt_of request)) as [[text' | e] tr]; cbn [fst] in *;
    [|discriminate].
  inversion E; subst text'. rewrite build_success_ok by assumption.
  eexists. split; reflexivity.
Qed.

Lemma RecommendMeal_does_not_check_menu_witness :
  exists response,
    outcome_of (RecommendMeal rt_timeout spaced_off_menu carbonara_request)
    = Ok response
    /\ recommended_meal_name response = py "Sushi"
    /\ ~ In (recommended_meal_name response)
           (map name (today_menu carbonara_request)).
Proof.
  destruct (@RecommendMeal_does_not_check_menu _ _ rt_timeout spaced_off_menu
              carbonara_request (py "  Sushi  "))
    as [response [Hr Hn]];
    [discriminate | discriminate | reflexivity | reflexivity | reflexivity |].
  exists response. split; [exact Hr|]. split; [exact Hn|].
  rewrite Hn. intros [E | [E | []]]; vm_compute in E; discriminate.
Defined.

(** C5 as stated fails: "every provider answer" includes one that cannot be
    encoded, here a lone surrogate between spaces, and for it the handler
    returns the error sentinel instead of the answer stripped. *)
Lemma RecommendMeal_does_not_check_menu_counterexample :
  ~ (forall (T : Type) (HT : LLM T) (rt : Runtime) (l : T)
            (request : MealRecommendationRequest) (text : str),
        favorite_meals request <> [] -> today_menu request <> [] ->
        outcome_of (_call rt l (prompt_of request)) = Ok text ->
        exists response,
          outcome_of (RecommendMeal rt l request) = Ok response
          /\ recommended_meal_name response = strip text).
Proof.
  intros Hall.
  destruct (Hall FixedLLM FixedLLM_LLM rt_timeout spaced_surrogate_answer
              carbonara_request [32%N; 56320%N; 32%N]
              ltac:(discriminate) ltac:(discriminate) eq_refl)
    as [response [Hr Hn]].
  assert (E : outcome_of
                (RecommendMeal rt_timeout spaced_surrogate_answer
                   carbonara_request)
              = Ok {| recommended_meal_name :=
                        py "Error generating recommendation";
                      reasoning :=
                        py "An error occurred: 'utf-8' codec can't encode character: surrogates not allowed" |})
    by (vm_compute; reflexivity).
  rewrite E in Hr. inversion Hr; subst response.
  vm_compute in Hn. discriminate Hn.
Qed.

(** C6. With non-empty favorites and a non-empty menu, the prompt the
    handler hands to the LLM is the template's text around the favorites
    joined with ", " and the menu names joined with ", ": every favorite
    and every menu name occurs in it verbatim, the names of each list occur
    in the order of the list, and so does the sentence that asks for
    nothing but the exact name of one dish of today's menu. *)
Theorem prompt_contains_inputs {T : Type} `{LLM T} (rt : Runtime) (l : T)
  (request : MealRecommendationRequest) :
  favorite_meals request <> [] -> today_menu request <> [] ->
  let favorites := favorite_meals request in
  let menu := map name (today_menu request) in
  exists prompt tr,
    trace_of (RecommendMeal rt l request) = LlmCall prompt :: tr
    /\ prompt = prompt_head ++ join (py ", ") favorites
                ++ prompt_middle ++ join (py ", ") menu ++ prompt_tail
    /\ (forall f, In f favorites -> occurs_in f prompt)
    /\ (forall m, In m menu -> occurs_in m prompt)
    /\ in_order favorites prompt
    /\ in_order menu prompt
    /\ occurs_in constraint_phrase prompt.
Proof.
  intros Hf Hm favorites menu.
  exists (prompt_of request).
  assert (Htr : exists tr,
             trace_of (RecommendMeal rt l request)
             = LlmCall (prompt_of request) :: tr).
  { rewrite RecommendMeal_run by assumption.
    destruct (_call rt l (prompt_of request)) as [[text | e] tr];
      [destruct (outcome_of (build_success rt text (favorite_meals request)))|];
      eexists; reflexivity. }
  destruct Htr as [tr Htr]. exists tr. split; [exact Htr|].
  unfold prompt_of, build_prompt. fold favorites menu.
  split; [reflexivity|]. repeat split.
  - intros f Hin. apply occurs_in_app_l, occurs_in_app_r.
    apply join_occurs, Hin.
  - intros m Hin. do 3 apply occurs_in_app_l. apply occurs_in_app_r.
    apply join_occurs, Hin.
  - apply in_order_app, join_in_order.
  - rewrite 2 app_assoc. apply in_order_app, join_in_order.
  - do 4 apply occurs_in_app_l. apply constraint_phrase_in_tail.
Qed.

Lemma prompt_contains_inputs_witness :
  exists prompt tr,
    trace_of (RecommendMeal rt_carbonara (llm env_with_key) carbonara_request)
    = LlmCall prompt :: tr
    /\ occurs_in (py "Lasagne, Risotto") prompt
    /\ occurs_in (py "Spaghetti Carbonara, Pizza") prompt
    /\ occurs_in constraint_phrase prompt.
Proof.
  destruct (@prompt_contains_inputs _ _ rt_carbonara (llm env_with_key)
              carbonara_request)
    as [prompt [tr [Htr [Hp [_ [_ [_ [_ Hc]]]]]]]];
    [discriminate | discriminate |].
  exists prompt, tr. split; [exact Htr|].
  split; [|split; [|exact Hc]]; rewrite Hp.
  - apply occurs_in_app_l, occurs_in_app_r, occurs_in_refl.
  - do 3 apply occurs_in_app_l. apply occurs_in_app_r, occurs_in_refl.
Defined.

(** ** The HTTP endpoint *)

(** With two non-empty lists the endpoint returns the empty string, without
    formatting a prompt or calling anything. *)
Lemma recommend_nonempty (rt : Runtime) (req : RecommendRequest) :
  favorite_menu req <> [] -> todays_menu req <> [] ->
  recommend rt req = (Ok {| recommendation := py "" |}, []).
Proof.
  intros Hf Hm. unfold recommend.
  apply is_empty_false in Hf, Hm. rewrite Hf, Hm. reflexivity.
Qed.

(** C7 (evaluated on the code). For favorites ["Pizza"], the menu ["Pasta"]
    and a provider answering "Pasta", the HTTP endpoint returns the empty
    string as its recommendation and calls nothing, whereas the gRPC
    handler recommends "Pasta" for the same input: the endpoint's
    [recommendation] field differs from the engine's chosen name. *)
Theorem recommend_ignores_engine :
  outcome_of (recommend rt_pasta pasta_http_request)
  = Ok {| recommendation := py "" |}
  /\ trace_of (recommend rt_pasta pasta_http_request) = []
  /\ exists response,
       outcome_of (RecommendMeal rt_pasta (llm env_with_key) pasta_grpc_request)
       = Ok response
       /\ recommended_meal_name response = py "Pasta"
       /\ recommended_meal_name response <> py "".
Proof.
  rewrite recommend_nonempty by discriminate.
  split; [reflexivity|]. split; [reflexivity|].
  eexists. split; [vm_compute; reflexivity|].
  split; [reflexivity | discriminate].
Qed.

(** C8. When [favorite_menu] or [todays_menu] is empty the endpoint raises
    an [HTTPException] with status 400, which is the status of the
    response, and performs no action: the provider is not invoked. *)
Theorem recommend_rejects_empty_list (rt : Runtime) (req : RecommendRequest) :
  favorite_menu req = [] \/ todays_menu req = [] ->
  (exists detail,
     outcome_of (recommend rt req) = Raise (HTTPException 400 detail))
  /\ status_of (outcome_of (recommend rt req)) = 400%Z
  /\ trace_of (recommend rt req) = []
  /\ provider_calls (trace_of (recommend rt req)) = 0%nat.
Proof.
  intros Hempty. unfold recommend.
  destruct (favorite_menu req) as [|f fs]; cbn [is_empty].
  - split; [eexists; reflexivity | repeat split].
  - destruct Hempty as [E | E]; [discriminate|]. rewrite E.
    split; [eexists; reflexivity | repeat split].
Qed.

Lemma recommend_rejects_empty_list_witness :
  (exists detail,
     outcome_of (recommend rt_pasta empty_favorites_http_request)
     = Raise (HTTPException 400 detail))
  /\ status_of (outcome_of (recommend rt_pasta empty_favorites_http_request))
     = 400%Z
  /\ trace_of (recommend rt_pasta empty_favorites_http_request) = []
  /\ provider_calls (trace_of (recommend rt_pasta empty_favorites_http_request))
     = 0%nat.
Proof.
  apply (@recommend_rejects_empty_list rt_pasta empty_favorites_http_request).
  left. reflexivity.
Defined.

(** ** Configuration *)

(** C9. When the variable CHAIR_API_KEY is not set, building the module's
    LLM succeeds, with no credential in it, and every call of it raises
    the [ValueError] "CHAIR_API_KEY environment variable is required"
    without sending anything. *)
Theorem missing_credential_fails_before_request (rt : Runtime) (env : environ)
  (prompt : str) :
  getenv env (py "CHAIR_API_KEY") = None ->
  api_key (llm env) = None
  /\ _call rt (llm env) prompt
     = (Raise (PyExc ValueError
                 (py "CHAIR_API_KEY environment variable is required")), [])
  /\ provider_calls (trace_of (_call rt (llm env) prompt)) = 0%nat.
Proof.
  intros E.
  assert (Hkey : api_key (llm env) = None) by exact E.
  assert (Hcall : _call rt (llm env) prompt
                  = (Raise (PyExc ValueError
                       (py "CHAIR_API_KEY environment variable is required")),
                     [])).
  { apply OpenWebUILLM_call_no_key. rewrite Hkey. reflexivity. }
  rewrite Hcall. repeat split. exact Hkey.
Qed.

Lemma missing_credential_fails_before_request_witness :
  api_key (llm env_without_key) = None
  /\ _call rt_carbonara (llm env_without_key) (py "Recommend a dish")
     = (Raise (PyExc ValueError
                 (py "CHAIR_API_KEY environment variable is required")), [])
  /\ provider_calls
       (trace_of (_call rt_carbonara (llm env_without_key)
                    (py "Recommend a dish"))) = 0%nat.
Proof.
  apply (@missing_credential_fails_before_request rt_carbonara env_without_key
           (py "Recommend a dish")).
  reflexivity.
Defined.

(** ** Independence of the user *)

(** C10. Two requests with the same favorites and the same menu get the
    same response, and cause the same actions, from the same LLM and
    runtime, whatever their [user_id]s. *)
Theorem RecommendMeal_ignores_user_id {T : Type} `{LLM T} (rt : Runtime) (l : T)
  (r1 r2 : MealRecommendationRequest) :
  favorite_meals r1 = favorite_meals r2 -> today_menu r1 = today_menu r2 ->
  RecommendMeal rt l r1 = RecommendMeal rt l r2.
Proof.
  intros Ef Em. unfold RecommendMeal. rewrite Ef, Em. reflexivity.
Qed.

Lemma RecommendMeal_ignores_user_id_witness :
  user_id carbonara_request <> user_id other_user_request
  /\ RecommendMeal rt_carbonara (llm env_with_key) carbonara_request
     = RecommendMeal rt_carbonara (llm env_with_key) other_user_request.
Proof.
  split; [discriminate|].
  apply (@RecommendMeal_ignores_user_id _ _ rt_carbonara (llm env_with_key)
           carbonara_request other_user_request); reflexivity.
Defined.

(* ===================================================================== *)
(** * Further properties of the code *)
(* ===================================================================== *)

(** ** Outcomes and traces of composed computations *)

Lemma outcome_of_bind {A B : Type} (m : M A) (k : A -> M B) :
  outcome_of (bind m k)
  = match outcome_of m with
    | Ok a => outcome_of (k a)
    | Raise e => Raise e
    end.
Proof.
  destruct m as [[a | e] tr]; unfold bind, outcome_of; cbn;
    [destruct (k a) | ]; reflexivity.
Qed.

Lemma outcome_of_try_except {A : Type} (m : M A) (h : exn -> M A) :
  outcome_of (try_except m h)
  = match outcome_of m with
    | Ok a => Ok a
    | Raise e => outcome_of (h e)
    end.
Proof.
  destruct m as [[a | e] tr]; unfold try_except, outcome_of; cbn;
    [| destruct (h e)]; reflexivity.
Qed.

Lemma outcome_of_post (rt : Runtime) (r : HttpRequest) :
  outcome_of (post rt r) = requests_post rt r.
Proof.
  unfold post, emit, lift, bind, outcome_of. reflexivity.
Qed.

Lemma trace_of_post (rt : Runtime) (r : HttpRequest) :
  trace_of (post rt r) = [HttpPost r].
Proof.
  unfold post, emit, lift, bind, trace_of. reflexivity.
Qed.

Lemma outcome_of_check_status (response : Response) :
  outcome_of (check_status response)
  = match raise_for_status response with
    | Some e => Raise e
    | None => Ok tt
    end.
Proof. unfold check_status. destruct (raise_for_status response); reflexivity. Qed.

(** ** The parts of the wrapper *)

Lemma silent_read_completion (rt : Runtime) (result : JSON) :
  silent (read_completion rt result).
Proof. unfold read_completion, py_and. silent_ops. Qed.

Lemma silent_wrap_errors (rt : Runtime) (e : exn) : silent (wrap_errors rt e).
Proof. unfold wrap_errors. silent_ops. Qed.

(** Each clause of the handler raises, and what it raises is not of a class
    the handler catches. *)
Lemma wrap_errors_raises (rt : Runtime) (e : exn) :
  exists e', outcome_of (wrap_errors rt e) = Raise e'
             /\ is_RequestException e' = false
             /\ is_KeyError_IndexError_ValueError e' = false.
Proof.
  unfold wrap_errors.
  destruct (is_RequestException e) eqn:Er; [eexists; repeat split|].
  destruct (is_KeyError_IndexError_ValueError e) eqn:Ek; eexists; repeat split;
    assumption.
Qed.

Lemma OpenWebUILLM_call_parts (rt : Runtime) (self : OpenWebUILLM) (prompt : str) :
  OpenWebUILLM_call rt self prompt
  = if negb (truthy (api_key self)) then
      raise (PyExc ValueError
               (py "CHAIR_API_KEY environment variable is required"))
    else
      try_except
        (response <- post rt (chat_request self prompt) ;;
         check_status response ;;
         result <- lift (response_json response) ;;
         read_completion rt result)
        (wrap_errors rt).
Proof. reflexivity. Qed.

(** With a credential, the outcome of the call is the completion read from
    the provider's answer, or what the handler makes of the error. *)
Lemma OpenWebUILLM_call_outcome (rt : Runtime) (self : OpenWebUILLM)
  (prompt : str) :
  truthy (api_key self) = true ->
  outcome_of (OpenWebUILLM_call rt self prompt)
  = match attempt rt (chat_request self prompt) with
    | Ok text => Ok text
    | Raise e => outcome_of (wrap_errors rt e)
    end.
Proof.
  intros E. rewrite OpenWebUILLM_call_parts, E. cbn [negb].
  rewrite outcome_of_try_except, outcome_of_bind, outcome_of_post.
  unfold attempt.
  destruct (requests_post rt (chat_request self prompt)) as [response | e];
    [|reflexivity].
  rewrite outcome_of_bind, outcome_of_check_status.
  destruct (raise_for_status response) as [e|]; [reflexivity|].
  rewrite outcome_of_bind.
  destruct (response_json response) as [result | e]; reflexivity.
Qed.

Lemma OpenWebUILLM_call_actions (rt : Runtime) (self : OpenWebUILLM)
  (prompt : str) :
  trace_of (OpenWebUILLM_call rt self prompt)
  = if truthy (api_key self) then [HttpPost (chat_request self prompt)] else [].
Proof.
  rewrite OpenWebUILLM_call_parts.
  destruct (truthy (api_key self)); cbn [negb]; [|reflexivity].
  rewrite trace_of_try_except by apply silent_wrap_errors.
  rewrite trace_of_bind; [apply trace_of_post|].
  intros response. apply silent_bind; [auto with silent|]. intros _.
  apply silent_bind; [auto with silent|]. intros result.
  apply silent_read_completion.
Qed.

(** ** Reading the completion *)

Lemma attempt_answers (rt : Runtime) (r : HttpRequest) (body : JSON) :
  provider_answers rt r body ->
  attempt rt r = outcome_of (read_completion rt body).
Proof.
  intros [response [Hp [Hs Hj]]]. unfold attempt. rewrite Hp, Hs, Hj.
  reflexivity.
Qed.

Lemma attempt_fails (rt : Runtime) (r : HttpRequest) (e : exn) :
  exchange_fails rt r e -> attempt rt r = Raise e.
Proof.
  unfold attempt.
  intros [Hp | [response [Hp [Hs | [Hs Hj]]]]]; rewrite Hp;
    [reflexivity | rewrite Hs; reflexivity | rewrite Hs, Hj; reflexivity].
Qed.

(** Whatever the body, a completion that is returned is a stripped string. *)
Lemma read_completion_Ok (rt : Runtime) (result : JSON) (text : str) :
  outcome_of (read_completion rt result) = Ok text ->
  exists content, text = strip content.
Proof.
  unfold read_completion. rewrite outcome_of_bind.
  destruct (outcome_of (py_and _ _)) as [[|] | e];
    [| discriminate | discriminate].
  rewrite outcome_of_bind.
  destruct (outcome_of (getitem rt result _)) as [choices | e]; [|discriminate].
  rewrite outcome_of_bind.
  destruct (outcome_of (getitem_0 rt choices)) as [choice | e]; [|discriminate].
  rewrite outcome_of_bind.
  destruct (outcome_of (getitem rt choice _)) as [message | e]; [|discriminate].
  rewrite outcome_of_bind.
  destruct (outcome_of (getitem rt message _)) as [content | e]; [|discriminate].
  destruct content; try discriminate.
  intros E. inversion E. eexists. reflexivity.
Qed.

Lemma read_completion_no_choices (rt : Runtime) (entries : list (str * JSON)) :
  lookup (py "choices") entries = None
  \/ lookup (py "choices") entries = Some (JList []) ->
  outcome_of (read_completion rt (JDict entries))
  = Raise (PyExc ValueError (py "Unexpected response format from API")).
Proof.
  intros [E | E]; unfold read_completion, py_and, py_in, getitem;
    rewrite E; reflexivity.
Qed.

Lemma read_completion_no_message (rt : Runtime) (entries : list (str * JSON))
  (choice : list (str * JSON)) (rest : list JSON) :
  lookup (py "choices") entries = Some (JList (JDict choice :: rest)) ->
  lookup (py "message") choice = None ->
  outcome_of (read_completion rt (JDict entries))
  = Raise (PyExc KeyError (py "'message'")).
Proof.
  intros Ec Em. unfold read_completion, py_and, py_in, getitem.
  rewrite Ec. cbn. rewrite Em. reflexivity.
Qed.

Lemma read_completion_content (rt : Runtime) (entries : list (str * JSON))
  (choice message : list (str * JSON)) (rest : list JSON) (content : JSON) :
  lookup (py "choices") entries = Some (JList (JDict choice :: rest)) ->
  lookup (py "message") choice = Some (JDict message) ->
  lookup (py "content") message = Some content ->
  outcome_of (read_completion rt (JDict entries))
  = outcome_of (strip_method rt content).
Proof.
  intros Ec Em En. unfold read_completion, py_and, py_in, getitem.
  rewrite Ec. cbn. rewrite Em. cbn. rewrite En. unfold bind, ret.
  destruct (strip_method rt content) as [[text | e] tr]; reflexivity.
Qed.

(** ** The wrapper: what it sends and what it raises *)

(** X1. A call of the wrapper that holds a credential sends exactly one
    request, whatever the provider answers: to [api_url], with the bearer
    token and the JSON content type as headers, the model name and a single
    user message carrying the prompt as payload, and a timeout of 30. A call
    without a credential ([None] or the empty string) sends nothing. *)
Theorem call_sends_exactly_the_chat_request (rt : Runtime) (self : OpenWebUILLM)
  (prompt : str) :
  trace_of (OpenWebUILLM_call rt self prompt)
  = if truthy (api_key self)
    then [ HttpPost
             {| url := api_url self;
                headers :=
                  [ (py "Authorization", py "Bearer " ++ fmt (api_key self));
                    (py "Content-Type", py "application/json") ];
                json :=
                  JDict [ (py "model", JStr (model_name self));
                          (py "messages",
                           JList [ JDict [ (py "role", JStr (py "user"));
                                           (py "content", JStr prompt) ] ]) ];
                timeout := 30 |} ]
    else [].
Proof. apply OpenWebUILLM_call_actions. Qed.

(** X2. With a credential, the wrapper never raises an exception of a class
    its own handler catches: whatever it raises is neither a
    [RequestException] nor a [KeyError], [IndexError] or [ValueError]. *)
Theorem call_never_raises_a_caught_class (rt : Runtime) (self : OpenWebUILLM)
  (prompt : str) (e : exn) :
  truthy (api_key self) = true ->
  outcome_of (OpenWebUILLM_call rt self prompt) = Raise e ->
  is_RequestException e = false
  /\ is_KeyError_IndexError_ValueError e = false.
Proof.
  intros Hkey. rewrite OpenWebUILLM_call_outcome by exact Hkey.
  destruct (attempt rt (chat_request self prompt)) as [text | e0];
    [discriminate|].
  destruct (wrap_errors_raises rt e0) as [e' [E [Hr Hk]]]. rewrite E.
  intros H. inversion H; subst e'. split; assumption.
Qed.

Lemma call_never_raises_a_caught_class_witness :
  outcome_of (OpenWebUILLM_call rt_no_choices (llm env_with_key) (py "hello"))
  = Raise (PyExc Exception_
             (py "Failed to parse API response: Unexpected response format from API"))
  /\ is_RequestException
       (PyExc Exception_
          (py "Failed to parse API response: Unexpected response format from API"))
     = false
  /\ is_KeyError_IndexError_ValueError
       (PyExc Exception_
          (py "Failed to parse API response: Unexpected response format from API"))
     = false.
Proof.
  assert (E : outcome_of
                (OpenWebUILLM_call rt_no_choices (llm env_with_key) (py "hello"))
              = Raise (PyExc Exception_
                         (py "Failed to parse API response: Unexpected response format from API")))
    by (vm_compute; reflexivity).
  split; [exact E|].
  apply (@call_never_raises_a_caught_class rt_no_choices (llm env_with_key)
           (py "hello") _ eq_refl E).
Defined.

(** X3. A text the wrapper returns is stripped: stripping it again changes
    nothing, and it neither begins nor ends with white space. *)
Theorem call_returns_stripped_text (rt : Runtime) (self : OpenWebUILLM)
  (prompt text : str) :
  outcome_of (OpenWebUILLM_call rt self prompt) = Ok text ->
  strip text = text
  /\ (forall c t, text = c :: t -> is_space c = false)
  /\ (forall t c, text = t ++ [c] -> is_space c = false).
Proof.
  destruct (truthy (api_key self)) eqn:Hkey.
  2:{ rewrite OpenWebUILLM_call_no_key by exact Hkey. discriminate. }
  rewrite OpenWebUILLM_call_outcome by exact Hkey.
  destruct (attempt rt (chat_request self prompt)) as [text' | e0] eqn:Ea.
  2:{ destruct (wrap_errors_raises rt e0) as [e' [E _]]. rewrite E.
      discriminate. }
  intros H. inversion H; subst text'. clear H.
  assert (Hs : exists content, text = strip content).
  { unfold attempt in Ea.
    destruct (requests_post rt _) as [response|]; [|discriminate].
    destruct (raise_for_status response); [discriminate|].
    destruct (response_json response) as [result|]; [|discriminate].
    exact (read_completion_Ok Ea). }
  destruct Hs as [content ->].
  destruct (strip_spec content) as [_ [Hfirst Hlast]].
  split; [apply strip_idem | split; assumption].
Qed.

Lemma call_returns_stripped_text_witness :
  outcome_of (OpenWebUILLM_call rt_carbonara (llm env_with_key) (py "hello"))
  = Ok (py "Spaghetti Carbonara")
  /\ strip (py "Spaghetti Carbonara") = py "Spaghetti Carbonara".
Proof.
  assert (E : outcome_of
                (OpenWebUILLM_call rt_carbonara (llm env_with_key) (py "hello"))
              = Ok (py "Spaghetti Carbonara")) by (vm_compute; reflexivity).
  split; [exact E|].
  exact (proj1 (@call_returns_stripped_text rt_carbonara (llm env_with_key)
                  (py "hello") (py "Spaghetti Carbonara") E)).
Defined.

(** X4. When the body of a successful answer is an object without the key
    "choices", or with an empty list under it, the wrapper raises
    [Exception("Failed to parse API response: Unexpected response format
    from API")]. *)
Theorem call_rejects_missing_choices (rt : Runtime) (self : OpenWebUILLM)
  (prompt : str) (entries : list (str * JSON)) :
  truthy (api_key self) = true ->
  provider_answers rt (chat_request self prompt) (JDict entries) ->
  lookup (py "choices") entries = None
  \/ lookup (py "choices") entries = Some (JList []) ->
  outcome_of (OpenWebUILLM_call rt self prompt)
  = Raise (PyExc Exception_
             (py "Failed to parse API response: Unexpected response format from API")).
Proof.
  intros Hkey Hans Hc. rewrite OpenWebUILLM_call_outcome by exact Hkey.
  rewrite (attempt_answers Hans), (read_completion_no_choices rt Hc).
  reflexivity.
Qed.

Lemma call_rejects_missing_choices_witness :
  outcome_of (OpenWebUILLM_call rt_no_choices (llm env_with_key) (py "hello"))
  = Raise (PyExc Exception_
             (py "Failed to parse API response: Unexpected response format from API")).
Proof.
  apply (@call_rejects_missing_choices rt_no_choices (llm env_with_key)
           (py "hello") [ (py "error", JStr (py "busy")) ]).
  - reflexivity.
  - eexists. repeat split.
  - left. reflexivity.
Defined.

(** X5. When the first choice of a successful answer is an object without
    the key "message", the wrapper raises
    [Exception("Failed to parse API response: 'message'")]: the text of the
    [KeyError] is the quoted key. *)
Theorem call_reports_missing_message (rt : Runtime) (self : OpenWebUILLM)
  (prompt : str) (entries choice : list (str * JSON)) (rest : list JSON) :
  truthy (api_key self) = true ->
  provider_answers rt (chat_request self prompt) (JDict entries) ->
  lookup (py "choices") entries = Some (JList (JDict choice :: rest)) ->
  lookup (py "message") choice = None ->
  outcome_of (OpenWebUILLM_call rt self prompt)
  = Raise (PyExc Exception_ (py "Failed to parse API response: 'message'")).
Proof.
  intros Hkey Hans Hc Hm. rewrite OpenWebUILLM_call_outcome by exact Hkey.
  rewrite (attempt_answers Hans), (read_completion_no_message rt Hc Hm).
  reflexivity.
Qed.

Lemma call_reports_missing_message_witness :
  outcome_of (OpenWebUILLM_call rt_no_message (llm env_with_key) (py "hello"))
  = Raise (PyExc Exception_ (py "Failed to parse API response: 'message'")).
Proof.
  apply (@call_reports_missing_message rt_no_message (llm env_with_key)
           (py "hello")
           [ (py "choices", JList [ JDict [ (py "index", JInt 0) ] ]) ]
           [ (py "index", JInt 0) ] []).
  - reflexivity.
  - eexists. repeat split.
  - reflexivity.
  - reflexivity.
Defined.

(** X6. When the content of the first choice is not a string (null, a
    number, a list, ...), the [AttributeError] of [content.strip()] leaves
    the wrapper as it is: neither clause of the handler catches it, so it is
    not turned into an [Exception] with one of the two prefixes. *)
Theorem call_lets_attribute_error_escape (rt : Runtime) (self : OpenWebUILLM)
  (prompt : str) (entries choice message : list (str * JSON))
  (rest : list JSON) (content : JSON) :
  truthy (api_key self) = true ->
  provider_answers rt (chat_request self prompt) (JDict entries) ->
  lookup (py "choices") entries = Some (JList (JDict choice :: rest)) ->
  lookup (py "message") choice = Some (JDict message) ->
  lookup (py "content") message = Some content ->
  (forall s, content <> JStr s) ->
  outcome_of (OpenWebUILLM_call rt self prompt)
  = Raise (PyExc AttributeError
             (interp_text rt (NoAttribute (type_name content) (py "strip")))).
Proof.
  intros Hkey Hans Hc Hm Hn Hnot.
  rewrite OpenWebUILLM_call_outcome by exact Hkey.
  rewrite (attempt_answers Hans), (read_completion_content rt Hc Hm Hn).
  destruct content; try reflexivity.
  exfalso. eapply Hnot. reflexivity.
Qed.

Lemma call_lets_attribute_error_escape_witness :
  outcome_of (OpenWebUILLM_call rt_null_content (llm env_with_key) (py "hello"))
  = Raise (PyExc AttributeError
             (interp_text rt_null_content
                (NoAttribute (py "NoneType") (py "strip")))).
Proof.
  apply (@call_lets_attribute_error_escape rt_null_content (llm env_with_key)
           (py "hello")
           [ (py "choices",
              JList [ JDict [ (py "message",
                               JDict [ (py "content", JNull) ]) ] ]) ]
           [ (py "message", JDict [ (py "content", JNull) ]) ]
           [ (py "content", JNull) ] [] JNull).
  - reflexivity.
  - eexists. repeat split.
  - reflexivity.
  - reflexivity.
  - reflexivity.
  - discriminate.
Defined.

(** X7. A [RequestException] raised by sending the request, by the status
    check or by decoding the body leaves the wrapper as
    [Exception("API request failed: " + str(e))]; after a failed status
    check the body is not looked at. *)
Theorem call_wraps_transport_errors (rt : Runtime) (self : OpenWebUILLM)
  (prompt : str) (e : exn) :
  truthy (api_key self) = true ->
  exchange_fails rt (chat_request self prompt) e ->
  is_RequestException e = true ->
  outcome_of (OpenWebUILLM_call rt self prompt)
  = Raise (PyExc Exception_ (py "API request failed: " ++ str_of rt e)).
Proof.
  intros Hkey Hfail He. rewrite OpenWebUILLM_call_outcome by exact Hkey.
  rewrite (attempt_fails Hfail). unfold wrap_errors. rewrite He. reflexivity.
Qed.

Lemma call_wraps_transport_errors_witness :
  outcome_of (OpenWebUILLM_call rt_server_error (llm env_with_key) (py "hello"))
  = Raise (PyExc Exception_ (py "API request failed: 500 Server Error")).
Proof.
  apply (@call_wraps_transport_errors rt_server_error (llm env_with_key)
           (py "hello") (PyExc RequestException (py "500 Server Error"))).
  - reflexivity.
  - right. eexists. split; [reflexivity|]. left. reflexivity.
  - reflexivity.
Defined.

(** ** The gRPC handler over the wrapper *)

(** X8. With CHAIR_API_KEY unset or empty and both lists non-empty, the
    gRPC handler hands the prompt to the LLM, sends no request, prints one
    line and returns "Error generating recommendation" with the reasoning
    "An error occurred: CHAIR_API_KEY environment variable is required". *)
Theorem RecommendMeal_without_credential (rt : Runtime) (env : environ)
  (request : MealRecommendationRequest) :
  truthy (CHAIR_API_KEY env) = false ->
  favorite_meals request <> [] -> today_menu request <> [] ->
  RecommendMeal rt (llm env) request
  = (Ok {| recommended_meal_name := py "Error generating recommendation";
           reasoning :=
             py "An error occurred: CHAIR_API_KEY environment variable is required" |},
     [ LlmCall (prompt_of request);
       Stdout
         (py "Error in gRPC recommendation: CHAIR_API_KEY environment variable is required") ]).
Proof.
  intros Hkey Hf Hm. rewrite RecommendMeal_run by assumption.
  change (_call rt (llm env) (prompt_of request))
    with (OpenWebUILLM_call rt (llm env) (prompt_of request)).
  rewrite OpenWebUILLM_call_no_key by exact Hkey. reflexivity.
Qed.

Lemma RecommendMeal_without_credential_witness :
  outcome_of (RecommendMeal rt_carbonara (llm env_with_empty_key) carbonara_request)
  = Ok {| recommended_meal_name := py "Error generating recommendation";
          reasoning :=
            py "An error occurred: CHAIR_API_KEY environment variable is required" |}
  /\ outbound_requests
       (trace_of (RecommendMeal rt_carbonara (llm env_with_empty_key)
                    carbonara_request)) = 0%nat.
Proof.
  rewrite (@RecommendMeal_without_credential rt_carbonara env_with_empty_key
             carbonara_request);
    [split; reflexivity | reflexivity | discriminate | discriminate].
Defined.

Lemma outbound_requests_app (a b : list event) :
  outbound_requests (a ++ b) = (outbound_requests a + outbound_requests b)%nat.
Proof. unfold outbound_requests. rewrite filter_app. apply length_app. Qed.

Lemma printed_app (a b : list event) : printed (a ++ b) = printed a ++ printed b.
Proof. apply filter_app. Qed.

(** With both lists non-empty the handler hands the prompt to the LLM, and
    after the actions of the LLM prints at most its own line. *)
Lemma RecommendMeal_trace {T : Type} `{LLM T} (rt : Runtime) (l : T)
  (request : MealRecommendationRequest) :
  favorite_meals request <> [] -> today_menu request <> [] ->
  exists extra,
    trace_of (RecommendMeal rt l request)
    = (LlmCall (prompt_of request) :: trace_of (_call rt l (prompt_of request)))
      ++ extra
    /\ (extra = [] \/ exists e, extra = [error_line rt e]).
Proof.
  intros Hf Hm. rewrite RecommendMeal_run by assumption. unfold trace_of.
  destruct (_call rt l (prompt_of request)) as [[text | e] tr]; cbn [snd].
  - destruct (outcome_of (build_success rt text (favorite_meals request)))
      as [response | e]; cbn [snd].
    + exists []. rewrite app_nil_r. auto.
    + eexists. split; [reflexivity | eauto].
  - eexists. split; [reflexivity | eauto].
Qed.

(** A response that is built holds the two texts given. *)
Lemma new_response_fields (rt : Runtime) (n r : str)
  (response : MealRecommendationResponse) :
  outcome_of (new_MealRecommendationResponse rt n r) = Ok response ->
  response = {| recommended_meal_name := n; reasoning := r |}.
Proof.
  unfold new_MealRecommendationResponse.
  destruct (encodable n); [destruct (encodable r)|]; cbn; intros E;
    inversion E; reflexivity.
Qed.

(** X9. Over the Open WebUI wrapper the gRPC handler sends at most one
    request to the provider per invocation (there is no retry), and none
    when the wrapper holds no credential. *)
Theorem RecommendMeal_sends_at_most_one_request (rt : Runtime)
  (self : OpenWebUILLM) (request : MealRecommendationRequest) :
  (outbound_requests (trace_of (RecommendMeal rt self request)) <= 1)%nat
  /\ (truthy (api_key self) = false ->
      outbound_requests (trace_of (RecommendMeal rt self request)) = 0%nat).
Proof.
  destruct (favorite_meals request) as [|f fs] eqn:Ef.
  { rewrite RecommendMeal_no_favorites by exact Ef. cbn. split; [lia | reflexivity]. }
  destruct (today_menu request) as [|m ms] eqn:Em.
  { rewrite RecommendMeal_no_menu by congruence. cbn. split; [lia | reflexivity]. }
  destruct (@RecommendMeal_trace _ _ rt self request) as [extra [-> Hextra]];
    [congruence | congruence |].
  change (_call rt self (prompt_of request))
    with (OpenWebUILLM_call rt self (prompt_of request)).
  rewrite OpenWebUILLM_call_actions, outbound_requests_app.
  assert (Hx : outbound_requests extra = 0%nat)
    by (destruct Hextra as [-> | [e ->]]; reflexivity).
  rewrite Hx.
  destruct (truthy (api_key self)); cbn;
    (split; [lia | intros E; (reflexivity || discriminate)]).
Qed.

(** X10. When both lists are non-empty and the LLM returns a text, the
    recommended meal name of the response is stripped: it neither begins
    nor ends with white space. *)
Theorem RecommendMeal_name_is_stripped {T : Type} `{LLM T} (rt : Runtime)
  (l : T) (request : MealRecommendationRequest) (text : str) :
  favorite_meals request <> [] -> today_menu request <> [] ->
  outcome_of (_call rt l (prompt_of request)) = Ok text ->
  exists response,
    outcome_of (RecommendMeal rt l request) = Ok response
    /\ strip (recommended_meal_name response) = recommended_meal_name response
    /\ (forall c t, recommended_meal_name response = c :: t ->
        is_space c = false)
    /\ (forall t c, recommended_meal_name response = t ++ [c] ->
        is_space c = false).
Proof.
  intros Hf Hm E.
  assert (Hs : exists response s,
             outcome_of (RecommendMeal rt l request) = Ok response
             /\ recommended_meal_name response = strip s).
  { rewrite RecommendMeal_run by assumption. unfold outcome_of in E.
    destruct (_call rt l (prompt_of request)) as [[text' | e] tr];
      cbn [fst] in E; [|discriminate].
    destruct (outcome_of (build_success rt text' (favorite_meals request)))
      as [response | e] eqn:Eb.
    - exists response, text'. split; [reflexivity|].
      apply new_response_fields in Eb. subst response. reflexivity.
    - apply new_response_raises in Eb. destruct Eb as [_ [_ He]].
      rewrite except_block_ok by exact He.
      exists (error_response rt e), (py "Error generating recommendation").
      split; reflexivity. }
  destruct Hs as [response [s [Hr Hn]]]. exists response.
  split; [exact Hr|]. rewrite Hn.
  destruct (strip_spec s) as [_ [Hfirst Hlast]].
  split; [apply strip_idem | split; assumption].
Qed.

Lemma RecommendMeal_name_is_stripped_witness :
  exists response,
    outcome_of (RecommendMeal rt_timeout spaced_carbonara carbonara_request)
    = Ok response
    /\ strip (recommended_meal_name response) = recommended_meal_name response.
Proof.
  destruct (@RecommendMeal_name_is_stripped _ _ rt_timeout spaced_carbonara
              carbonara_request (py "  Spaghetti Carbonara  "))
    as [response [Hr [Hs _]]];
    [discriminate | discriminate | reflexivity |].
  exists response. split; assumption.
Defined.

(** X11. With both lists non-empty and favorites that can be encoded: when
    the LLM returns a text that, stripped, can be encoded, the handler
    itself prints nothing; when the LLM raises an error [e] whose text can
    be encoded, the handler prints exactly one line,
    "Error in gRPC recommendation: " followed by [str(e)], after whatever
    the LLM printed. *)
Theorem RecommendMeal_prints_errors_only {T : Type} `{LLM T} (rt : Runtime)
  (l : T) (request : MealRecommendationRequest) :
  favorite_meals request <> [] -> today_menu request <> [] ->
  favorites_encodable request = true ->
  match outcome_of (_call rt l (prompt_of request)) with
  | Ok text => encodable (strip text)
  | Raise e => encodable (str_of rt e)
  end = true ->
  printed (trace_of (RecommendMeal rt l request))
  = printed (trace_of (_call rt l (prompt_of request)))
    ++ match outcome_of (_call rt l (prompt_of request)) with
       | Ok _ => []
       | Raise e =>
           [Stdout (py "Error in gRPC recommendation: " ++ str_of rt e)]
       end.
Proof.
  intros Hf Hm Hw Henc. rewrite RecommendMeal_run by assumption.
  unfold outcome_of, trace_of in *.
  destruct (_call rt l (prompt_of request)) as [[text | e] tr];
    cbn [fst snd] in *.
  - rewrite build_success_ok by assumption. cbn [fst snd].
    rewrite app_nil_r. reflexivity.
  - rewrite printed_app. reflexivity.
Qed.

Lemma RecommendMeal_prints_errors_only_witness :
  printed (trace_of (RecommendMeal rt_timeout (llm env_with_key) carbonara_request))
  = [Stdout (py "Error in gRPC recommendation: API request failed: timed out")].
Proof.
  rewrite (@RecommendMeal_prints_errors_only _ _ rt_timeout (llm env_with_key)
             carbonara_request);
    [vm_compute; reflexivity | discriminate | discriminate | reflexivity
    | vm_compute; reflexivity].
Defined.

(** ** The HTTP endpoint and the two transports *)

Lemma recommend_silent (rt : Runtime) (req : RecommendRequest) :
  trace_of (recommend rt req) = [].
Proof.
  unfold recommend.
  destruct (favorite_menu req); [reflexivity|].
  destruct (todays_menu req); reflexivity.
Qed.

Lemma recommend_status (rt : Runtime) (req : RecommendRequest) :
  status_of (outcome_of (recommend rt req))
  = (if is_empty (favorite_menu req) || is_empty (todays_menu req)
     then 400 else 200)%Z.
Proof.
  unfold recommend.
  destruct (favorite_menu req); [reflexivity|].
  destruct (todays_menu req); reflexivity.
Qed.

(** X12. For every request the HTTP endpoint performs no action (it neither
    prints nor reaches the provider) and answers 400 when one of the lists
    is empty and 200 otherwise; the branch that answers 500 is never
    taken. *)
Theorem recommend_answers_200_or_400 (rt : Runtime) (req : RecommendRequest) :
  trace_of (recommend rt req) = []
  /\ status_of (outcome_of (recommend rt req))
     = (if is_empty (favorite_menu req) || is_empty (todays_menu req)
        then 400 else 200)%Z
  /\ status_of (outcome_of (recommend rt req)) <> 500%Z.
Proof.
  rewrite recommend_status. split; [apply recommend_silent|].
  split; [reflexivity|].
  destruct (is_empty (favorite_menu req) || is_empty (todays_menu req));
    discriminate.
Qed.

(** X13. The two transports reject the same inputs: the HTTP endpoint
    answers 400 for two lists exactly when the gRPC handler, given the same
    lists, returns without handing anything to the LLM. *)
Theorem transports_agree_on_empty_input {T : Type} `{LLM T} (rt : Runtime)
  (l : T) (uid : str) (req : RecommendRequest) :
  status_of (outcome_of (recommend rt req)) = 400%Z
  <-> provider_calls (trace_of (RecommendMeal rt l (as_grpc_request uid req)))
      = 0%nat.
Proof.
  rewrite recommend_status.
  destruct (favorite_menu req) as [|f fs] eqn:Ef.
  { rewrite RecommendMeal_no_favorites by exact Ef. cbn. tauto. }
  destruct (todays_menu req) as [|m ms] eqn:Em.
  { rewrite RecommendMeal_no_menu
      by (cbn [as_grpc_request favorite_meals today_menu];
          rewrite ?Ef, ?Em; first [discriminate | reflexivity]).
    cbn. tauto. }
  destruct (@RecommendMeal_trace _ _ rt l (as_grpc_request uid req))
    as [extra [-> _]];
    [cbn [as_grpc_request favorite_meals today_menu]; rewrite ?Ef, ?Em;
     discriminate ..|].
  cbn [is_empty orb]. cbn. split; discriminate.
Qed.

(** ** The chain *)

(** X14. For any two clause texts, braces included, the chain formats the
    template without error into the template's text around the two clauses,
    hands that prompt to the LLM exactly once, and returns or raises what
    the LLM returns or raises. *)
Theorem chain_inserts_clauses_verbatim {T : Type} `{LLM T} (rt : Runtime)
  (l : T) (f t : str) :
  exists prompt,
    recommendation_chain l rt
      [ (py "favorite_menu", f); (py "todays_menu", t) ]
    = (outcome_of (_call rt l prompt), LlmCall prompt :: trace_of (_call rt l prompt))
    /\ prompt = prompt_head ++ f ++ prompt_middle ++ t ++ prompt_tail.
Proof.
  eexists. split; [apply recommendation_chain_run | reflexivity].
Qed.

(** ** End to end *)

(** X15. End to end, over the Open WebUI wrapper with a credential, both
    lists non-empty and favorites that can be encoded: when the provider
    answers with a completion whose first choice carries a string as the
    content of its message (whatever else the answer carries), and that
    string stripped can be encoded, the handler returns it stripped as the
    recommended meal; the wrapper and the handler both strip it, which
    amounts to once. *)
Theorem RecommendMeal_open_webui_completion (rt : Runtime) (self : OpenWebUILLM)
  (request : MealRecommendationRequest)
  (entries choice message : list (str * JSON)) (rest : list JSON)
  (content : str) :
  favorite_meals request <> [] -> today_menu request <> [] ->
  favorites_encodable request = true ->
  truthy (api_key self) = true ->
  provider_answers rt (chat_request self (prompt_of request)) (JDict entries) ->
  lookup (py "choices") entries = Some (JList (JDict choice :: rest)) ->
  lookup (py "message") choice = Some (JDict message) ->
  lookup (py "content") message = Some (JStr content) ->
  encodable (strip content) = true ->
  outcome_of (RecommendMeal rt self request)
  = Ok {| recommended_meal_name := strip content;
          reasoning := py "Recommended based on your favorites: "
                       ++ join (py ", ") (favorite_meals request) |}.
Proof.
  intros Hf Hm Hw Hkey Hans Hc Hmsg Hcontent Henc.
  pose proof (OpenWebUILLM_call_outcome rt (prompt_of request) Hkey) as Ho.
  rewrite (attempt_answers Hans),
    (read_completion_content rt Hc Hmsg Hcontent) in Ho.
  change (outcome_of (strip_method rt (JStr content))) with (Ok (strip content))
    in Ho.
  rewrite RecommendMeal_run by assumption.
  change (_call rt self (prompt_of request))
    with (OpenWebUILLM_call rt self (prompt_of request)).
  unfold outcome_of in Ho.
  destruct (OpenWebUILLM_call rt self (prompt_of request)) as [[text | e] tr];
    cbn [fst] in Ho; [|discriminate].
  inversion Ho; subst text.
  rewrite build_success_ok by (rewrite ?strip_idem; assumption).
  unfold outcome_of, success_response. cbn [fst]. rewrite strip_idem.
  reflexivity.
Qed.

Lemma RecommendMeal_open_webui_completion_witness :
  outcome_of (RecommendMeal rt_full_completion (llm env_with_key)
                carbonara_request)
  = Ok {| recommended_meal_name := py "Spaghetti Carbonara";
          reasoning := py "Recommended based on your favorites: Lasagne, Risotto" |}.
Proof.
  rewrite (@RecommendMeal_open_webui_completion rt_full_completion
             (llm env_with_key) carbonara_request
             [ (py "id", JStr (py "chatcmpl-1"));
               (py "choices",
                JList
                  [ JDict
                      [ (py "index", JInt 0);
                        (py "message",
                         JDict [ (py "role", JStr (py "assistant"));
                                 (py "content",
                                  JStr (py "  Spaghetti Carbonara  ")) ]);
                        (py "finish_reason", JStr (py "stop")) ] ]);
               (py "usage", JDict [ (py "total_tokens", JInt 42) ]) ]
             [ (py "index", JInt 0);
               (py "message",
                JDict [ (py "role", JStr (py "assistant"));
                        (py "content", JStr (py "  Spaghetti Carbonara  ")) ]);
               (py "finish_reason", JStr (py "stop")) ]
             [ (py "role", JStr (py "assistant"));
               (py "content", JStr (py "  Spaghetti Carbonara  ")) ]
             [] (py "  Spaghetti Carbonara  "));
    [ vm_compute; reflexivity | discriminate | discriminate | reflexivity
    | reflexivity | eexists; repeat split | reflexivity | reflexivity
    | reflexivity | reflexivity ].
Defined.

(** X16. End to end, over the Open WebUI wrapper with a credential and both
    lists non-empty: when sending the request, the status check or the
    decoding of the body raises a [RequestException] [e] whose text can be
    encoded, the handler returns "Error generating recommendation" with
    the reasoning "An error occurred: API request failed: " followed by
    [str(e)]. *)
Theorem RecommendMeal_open_webui_request_failed (rt : Runtime)
  (self : OpenWebUILLM) (request : MealRecommendationRequest) (e : exn) :
  favorite_meals request <> [] -> today_menu request <> [] ->
  truthy (api_key self) = true ->
  exchange_fails rt (chat_request self (prompt_of request)) e ->
  is_RequestException e = true ->
  encodable (str_of rt e) = true ->
  outcome_of (RecommendMeal rt self request)
  = Ok {| recommended_meal_name := py "Error generating recommendation";
          reasoning := py "An error occurred: " ++ py "API request failed: "
                       ++ str_of rt e |}.
Proof.
  intros Hf Hm Hkey Hfail He Henc.
  pose proof (OpenWebUILLM_call_outcome rt (prompt_of request) Hkey) as Ho.
  rewrite (attempt_fails Hfail) in Ho. unfold wrap_errors in Ho.
  rewrite He in Ho.
  rewrite RecommendMeal_run by assumption.
  change (_call rt self (prompt_of request))
    with (OpenWebUILLM_call rt self (prompt_of request)).
  unfold outcome_of in Ho.
  destruct (OpenWebUILLM_call rt self (prompt_of request)) as [[text | e'] tr];
    cbn [fst] in Ho; [discriminate|].
  inversion Ho; subst e'.
  rewrite except_block_ok
    by (change (encodable (py "API request failed: " ++ str_of rt e) = true);
        rewrite encodable_app, Henc; reflexivity).
  reflexivity.
Qed.

Lemma RecommendMeal_open_webui_request_failed_witness :
  outcome_of (RecommendMeal rt_timeout (llm env_with_key) carbonara_request)
  = Ok {| recommended_meal_name := py "Error generating recommendation";
          reasoning := py "An error occurred: API request failed: timed out" |}.
Proof.
  rewrite (@RecommendMeal_open_webui_request_failed rt_timeout
             (llm env_with_key) carbonara_request
             (PyExc RequestException (py "timed out")));
    [ reflexivity | discriminate | discriminate | reflexivity
    | left; reflexivity | reflexivity | reflexivity ].
Defined.

(** ** When the handler returns and when it raises *)

(** X17. The handler raises only in one case: both lists are non-empty, the
    call of the LLM raised, and the text of that error cannot be encoded
    as UTF-8. In every other case it returns a response. *)
Theorem RecommendMeal_raises_only_on_unencodable_error {T : Type} `{LLM T}
  (rt : Runtime) (l : T) (request : MealRecommendationRequest) (e' : exn) :
  outcome_of (RecommendMeal rt l request) = Raise e' ->
  favorite_meals request <> [] /\ today_menu request <> []
  /\ exists e,
       outcome_of (_call rt l (prompt_of request)) = Raise e
       /\ encodable (str_of rt e) = false.
Proof.
  destruct (favorite_meals request) as [|f fs] eqn:Ef.
  { rewrite RecommendMeal_no_favorites by exact Ef. discriminate. }
  destruct (today_menu request) as [|m ms] eqn:Em.
  { rewrite RecommendMeal_no_menu by congruence. discriminate. }
  rewrite RecommendMeal_run by congruence. unfold outcome_of.
  destruct (_call rt l (prompt_of request)) as [[text | e] tr]; cbn [fst].
  - destruct (fst (build_success rt text _)) as [response | e] eqn:Eb;
      cbn [fst]; [discriminate|].
    apply new_response_raises in Eb. destruct Eb as [_ [_ He]].
    rewrite except_block_ok by exact He. discriminate.
  - destruct (encodable (str_of rt e)) eqn:He.
    + rewrite except_block_ok by exact He. discriminate.
    + intros _. repeat split; try discriminate. exists e. auto.
Qed.

Lemma RecommendMeal_raises_only_on_unencodable_error_witness :
  exists e,
    outcome_of (_call rt_timeout surrogate_error (prompt_of carbonara_request))
    = Raise e
    /\ encodable (str_of rt_timeout e) = false.
Proof.
  exact (proj2 (proj2
    (@RecommendMeal_raises_only_on_unencodable_error _ _ rt_timeout
       surrogate_error carbonara_request
       (encode_error rt_timeout (py "An error occurred: " ++ [55356%N]))
       eq_refl))).
Defined.

(** X18. With both lists non-empty, when the call of the LLM raises an error
    [e] whose text can be encoded, the handler returns
    "Error generating recommendation" with the reasoning
    "An error occurred: " followed by [str(e)], in which the text of the
    error occurs. *)
Theorem RecommendMeal_reports_error {T : Type} `{LLM T} (rt : Runtime) (l : T)
  (request : MealRecommendationRequest) (e : exn) :
  favorite_meals request <> [] -> today_menu request <> [] ->
  outcome_of (_call rt l (prompt_of request)) = Raise e ->
  encodable (str_of rt e) = true ->
  outcome_of (RecommendMeal rt l request)
  = Ok {| recommended_meal_name := py "Error generating recommendation";
          reasoning := py "An error occurred: " ++ str_of rt e |}
  /\ occurs_in (str_of rt e) (py "An error occurred: " ++ str_of rt e).
Proof.
  intros Hf Hm E He. rewrite RecommendMeal_run by assumption.
  unfold outcome_of in *.
  destruct (_call rt l (prompt_of request)) as [[text | e0] tr];
    cbn [fst] in *; [discriminate|].
  inversion E; subst e0. rewrite except_block_ok by exact He.
  split; [reflexivity | auto with occ].
Qed.

Lemma RecommendMeal_reports_error_witness :
  outcome_of (RecommendMeal rt_timeout (llm env_with_key) carbonara_request)
  = Ok {| recommended_meal_name := py "Error generating recommendation";
          reasoning := py "An error occurred: API request failed: timed out" |}.
Proof.
  exact (proj1
    (@RecommendMeal_reports_error _ _ rt_timeout (llm env_with_key)
       carbonara_request
       (PyExc Exception_ (py "API request failed: timed out"))
       ltac:(discriminate) ltac:(discriminate)
       ltac:(vm_compute; reflexivity) eq_refl)).
Defined.

(** X19. With both lists non-empty, when the LLM returns a text that,
    stripped, cannot be encoded as UTF-8 (a lone surrogate in it), the
    response cannot be built from it: the handler prints one line and
    returns "Error generating recommendation", the reasoning being
    "An error occurred: " followed by the text of the encoding error. *)
Theorem RecommendMeal_unencodable_answer {T : Type} `{LLM T} (rt : Runtime)
  (l : T) (request : MealRecommendationRequest) (text : str) :
  favorite_meals request <> [] -> today_menu request <> [] ->
  outcome_of (_call rt l (prompt_of request)) = Ok text ->
  encodable (strip text) = false ->
  outcome_of (RecommendMeal rt l request)
  = Ok {| recommended_meal_name := py "Error generating recommendation";
          reasoning := py "An error occurred: "
                       ++ encode_error_text rt (strip text) |}
  /\ printed (trace_of (RecommendMeal rt l request))
     = printed (trace_of (_call rt l (prompt_of request)))
       ++ [Stdout (py "Error in gRPC recommendation: "
                   ++ encode_error_text rt (strip text))].
Proof.
  intros Hf Hm E Ht. rewrite RecommendMeal_run by assumption.
  unfold outcome_of, trace_of in *.
  destruct (_call rt l (prompt_of request)) as [[text' | e] tr];
    cbn [fst snd] in *; [|discriminate].
  inversion E; subst text'.
  assert (Eb : fst (build_success rt text (favorite_meals request))
               = Raise (encode_error rt (strip text))).
  { unfold build_success, new_MealRecommendationResponse. rewrite Ht.
    reflexivity. }
  rewrite Eb.
  rewrite except_block_ok by apply encode_error_text_encodable.
  cbn [fst snd]. split; [reflexivity|].
  rewrite printed_app. reflexivity.
Qed.

Lemma RecommendMeal_unencodable_answer_witness :
  outcome_of (RecommendMeal rt_timeout surrogate_answer carbonara_request)
  = Ok {| recommended_meal_name := py "Error generating recommendation";
          reasoning :=
            py "An error occurred: 'utf-8' codec can't encode character: surrogates not allowed" |}.
Proof.
  exact (proj1
    (@RecommendMeal_unencodable_answer _ _ rt_timeout surrogate_answer
       carbonara_request [55356%N]
       ltac:(discriminate) ltac:(discriminate) eq_refl eq_refl)).
Defined.
